(** * epscraper: discovery, reference files, download and orchestration

    A shallow embedding of the acquisition pipeline of the repository
    (the [supersearcher], [superscraper], [superdownloader], [downloader],
    [supermain] and [search_and_download] modules) and of [process_pdf]
    of [superocr], together with the properties of its natural-language
    specification and further properties of the code.

    Python [str] values are [string]s over ASCII characters, except the
    text the OCR returns, which is a list of code points; the file
    system is a finite map from path to content plus a set of directories;
    everything the program obtains from the browser or the network is an
    explicit environment value, and every effect the properties speak
    about is recorded in an event trace. *)

From Stdlib Require Import ZArith Ascii String List Bool Lia DecimalString.
From Stdlib Require DecimalPos.
From stdpp Require Import base tactics option list gmap strings.

Local Open Scope string_scope.
Local Open Scope Z_scope.
Local Open Scope list_scope.

(** ** Python string primitives *)

Module PyStr.

(** [s.startswith(p)] *)
Fixpoint startswith (s p : string) : bool :=
  match p, s with
  | EmptyString, _ => true
  | String _ _, EmptyString => false
  | String a p', String b s' => if Ascii.eqb a b then startswith s' p' else false
  end.

(** [s.endswith(p)] *)
Definition endswith (s p : string) : bool :=
  startswith (String.rev s) (String.rev p).

(** [p in s] *)
Fixpoint contains (s p : string) : bool :=
  startswith s p ||
  match s with
  | EmptyString => false
  | String _ s' => contains s' p
  end.

(** [c.lower()] on one ASCII character. *)
Definition lower_ascii (c : ascii) : ascii :=
  let n := nat_of_ascii c in
  if ((65 <=? n) && (n <=? 90))%nat then ascii_of_nat (n + 32) else c.

(** [s.lower()] *)
Fixpoint lower (s : string) : string :=
  match s with
  | EmptyString => EmptyString
  | String c s' => String (lower_ascii c) (lower s')
  end.

(** The characters [str.strip()] removes: tab, line feed, vertical tab,
    form feed, carriage return, the separators 0x1c-0x1f and space. *)
Definition is_space (c : ascii) : bool :=
  let n := nat_of_ascii c in
  (((9 <=? n) && (n <=? 13)) || ((28 <=? n) && (n <=? 32)))%nat.

(** Line terminators of text-mode reading (universal newlines). *)
Definition is_newline (c : ascii) : bool :=
  let n := nat_of_ascii c in
  ((n =? 10) || (n =? 13))%nat.

Fixpoint lstrip (s : string) : string :=
  match s with
  | EmptyString => EmptyString
  | String c s' => if is_space c then lstrip s' else s
  end.

Fixpoint rstrip (s : string) : string :=
  match s with
  | EmptyString => EmptyString
  | String c s' =>
      match rstrip s' with
      | EmptyString => if is_space c then EmptyString else String c EmptyString
      | r => String c r
      end
  end.

(** [s.strip()] *)
Definition strip (s : string) : string := rstrip (lstrip s).

(** [bool(s)]: a string is truthy when it is not empty. *)
Definition truthy (s : string) : bool :=
  match s with EmptyString => false | _ => true end.

Definition no_newline (s : string) : bool :=
  forallb (fun c => negb (is_newline c)) (list_ascii_of_string s).

(** The lines a text-mode iteration [for line in f] yields, without
    their terminators.  Every line feed and every carriage return ends
    a line; the extra empty line this gives for a CR LF pair is
    dropped by every reader below, which skips blank lines. *)
Fixpoint lines (s : string) : list string :=
  match s with
  | EmptyString => []
  | String c s' =>
      if is_newline c then EmptyString :: lines s'
      else match lines s' with
           | [] => [String c EmptyString]
           | l :: ls => String c l :: ls
           end
  end.

(** The text after the last ['/']: [p.split('/')[-1]], which is also
    [os.path.basename(p)] on POSIX. *)
Fixpoint last_segment (p : string) : string :=
  match p with
  | EmptyString => EmptyString
  | String c p' =>
      if Ascii.eqb c "/"%char then last_segment p'
      else if contains p' "/" then last_segment p'
      else p
  end.

(** [str(i)] for an integer. *)
Definition str_of_Z (i : Z) : string := NilEmpty.string_of_int (Z.to_int i).

(** [c.isdigit()] for one ASCII character and [s.isdigit()]. *)
Definition is_digit (c : ascii) : bool :=
  let n := nat_of_ascii c in ((48 <=? n) && (n <=? 57))%nat.

Definition isdigit (s : string) : bool :=
  truthy s && forallb is_digit (list_ascii_of_string s).

(** [int(s)] for a string of ASCII digits. *)
Definition int_of_digits (s : string) : Z :=
  fold_left (fun acc c => 10 * acc + Z.of_nat (nat_of_ascii c - 48))
            (list_ascii_of_string s) 0.

End PyStr.


Import PyStr.

(** ** Library functions, exceptions, file system, events *)

(** The functions of the Python standard library the program calls and
    that are not part of the repository. *)
Class PyLib := {
  (** [urlparse(url).path] *)
  urlparse_path : string -> string;
  (** [unquote(s)] *)
  unquote : string -> string;
  (** [urljoin(base, href)] *)
  urljoin : string -> string -> string;
  (** [int(s)]; [None] stands for [ValueError] *)
  py_int : string -> option Z
}.

Inductive exn :=
| FileNotFoundError (msg : string)
| FileExistsError
| NotADirectoryError
| IsADirectoryError
| TimeoutException
| WebDriverException.

Inductive outcome (A : Type) :=
| Return (a : A)
| Raise (e : exn).
Arguments Return {A} a.
Arguments Raise {A} e.

(** Files with their content, and the directories that exist. *)
Record filesys := {
  files : gmap string string;
  dirs : gset string
}.

Definition path_exists (fs : filesys) (p : string) : bool :=
  bool_decide (is_Some (files fs !! p)) || bool_decide (p ∈ dirs fs).

(** [Path(d) / name]: joining the empty name gives the directory, and
    joining an absolute name gives that name. *)
Definition path_join (d name : string) : string :=
  match name with
  | EmptyString => d
  | _ => if startswith name "/" then name else d +:+ "/" +:+ name
  end.

(** The proper prefixes of a path that end before a ['/'], outermost
    first: the ancestors of the path; the prefix before a leading ['/']
    is the root. *)
Fixpoint ancestors_from (pre s : string) : list string :=
  match s with
  | EmptyString => []
  | String c s' =>
      (if Ascii.eqb c "/"%char
       then [match pre with EmptyString => "/" | _ => pre end]
       else [])
        ++ ancestors_from (pre +:+ String c EmptyString) s'
  end.

(** [Path(p).parent] *)
Definition parent (p : string) : string :=
  List.last (ancestors_from "" p) ".".

(** Nothing on disk. *)
Definition empty_fs : filesys := {| files := ∅; dirs := ∅ |}.

(** [Path(d).mkdir(exist_ok=True)] *)
Definition mkdir (d : string) (fs : filesys) : filesys :=
  {| files := files fs; dirs := {[d]} ∪ dirs fs |}.

(** Whether a directory is there; the working directory and the root
    always are. *)
Definition dir_exists (fs : filesys) (d : string) : bool :=
  bool_decide (d ∈ dirs fs) || String.eqb d "." || String.eqb d "/".

(** [Path(d).mkdir(exist_ok=True)], without [parents]: it raises when
    [d] is a regular file, and when the directory above [d] is a
    regular file or is missing. *)
Definition mkdir_exist_ok (d : string) (fs : filesys) : outcome filesys :=
  if bool_decide (is_Some (files fs !! d)) then Raise FileExistsError
  else if dir_exists fs d then Return (mkdir d fs)
  else if dir_exists fs (parent d) then Return (mkdir d fs)
  else if bool_decide (is_Some (files fs !! parent d))
       then Raise NotADirectoryError
  else Raise (FileNotFoundError d).

(** [Path(d).mkdir(parents=True, exist_ok=True)] *)
Definition mkdir_parents (d : string) (fs : filesys) : filesys :=
  {| files := files fs;
     dirs := list_to_set (d :: ancestors_from "" d) ∪ dirs fs |}.

(** The content of a file, empty when there is none. *)
Definition read_text (p : string) (fs : filesys) : string :=
  default "" (files fs !! p).

(** [open(p, 'w')] or [open(p, 'wb')], one write, close. *)
Definition write_file (p content : string) (fs : filesys) : filesys :=
  {| files := <[p := content]> (files fs); dirs := dirs fs |}.

(** [open(p, 'a')], one write, close. *)
Definition append_file (p content : string) (fs : filesys) : filesys :=
  write_file p (read_text p fs +:+ content) fs.

(** Whether [open(p, 'wb')] succeeds: [p] is not a directory and the
    directory it lies in exists. *)
Definition can_create (p : string) (fs : filesys) : bool :=
  negb (bool_decide (p ∈ dirs fs)) && bool_decide (parent p ∈ dirs fs).

(** [Path(p).unlink()] *)
Definition unlink (p : string) (fs : filesys) : filesys :=
  {| files := delete p (files fs); dirs := dirs fs |}.

(** What the program does to the browser, the network and the
    completed-set, in the order it does it. *)
Inductive event :=
| EvChromeStart
| EvChromeQuit
| EvDriverGet (url : string)
| EvGateWait
| EvGateClick
| EvSearch (query : string)
| EvExtract (page : Z)
| EvClickNext (page : Z)
| EvHttpGet (url : string)
| EvWrite (path : string)
| EvMarkCompleted (dataset : Z).

(** How often a trace clicks the age button. *)
Definition gate_clicks (tr : list event) : nat :=
  length (List.filter
            (fun e => match e with EvGateClick => true | _ => false end) tr).

(** How many data sets a trace registers as downloaded. *)
Definition marks (tr : list event) : nat :=
  length (List.filter
            (fun e => match e with EvMarkCompleted _ => true | _ => false end) tr).


(** How many files a trace stores. *)
Definition writes (tr : list event) : nat :=
  length (List.filter
            (fun e => match e with EvWrite _ => true | _ => false end) tr).

(** The text written for a list of URLs: [f.write(f'{url}\n')] for each. *)
Fixpoint url_text (urls : list string) : string :=
  match urls with
  | [] => ""
  | u :: rest => u +:+ String "010"%char (url_text rest)
  end.

(** A URL that the URL file stores and gives back as it is: not empty,
    on one line, with no white space around it and no leading ['#']. *)
Definition url_line (u : string) : bool :=
  String.eqb (strip u) u && truthy u && no_newline u
  && negb (startswith u "#").

(** The test of the loops that read a URL file, on a stripped line:
    [line and not line.startswith('#')]. *)
Definition keep_line (line : string) : bool :=
  truthy line && negb (startswith line "#").

(** ** superscraper.py *)

Module Superscraper.
Section WithLib.
Context `{PyLib}.

(** The [href] values of the anchors that have one, in document order,
    as [soup.find_all('a', href=True)] finds them in the fetched page;
    [None] when [requests.get] or [raise_for_status] raises a
    [RequestException]. *)
Definition fetched := option (list string).

Definition scrape_pdf_urls (url : string) (page : fetched) : list string :=
  match page with
  | None => []
  | Some hrefs =>
      fold_left
        (fun pdf_urls href =>
           if endswith href ".pdf"
           then pdf_urls ++ [urljoin url href]
           else pdf_urls)
        hrefs []
  end.

End WithLib.
End Superscraper.

(** ** supersearcher.py *)

Module Supersearcher.

(** What [element.get_attribute(name)] gives: an exception (a stale
    element), [None], or the value; for [href] the browser returns the
    URL already resolved against the page. *)
Inductive attribute :=
| AttrRaises
| AttrNone
| AttrValue (v : string).

Record button := {
  btn_text : string;
  btn_enabled : bool;
  btn_disabled : option string
}.

Record anchor := {
  a_text : string;
  a_href : attribute
}.

(** One rendered page of the listing: the anchors inside [#results]
    ([None] when the container does not appear within the wait), the
    buttons and anchors inside [#pagination] ([None] when there is no
    such element), and, for the next control of the page, whether the
    scroll script works, whether the click of the element itself works,
    and whether the click script used instead works. *)
Record page := {
  results : option (list anchor);
  pagination : option (list button * list anchor);
  script_ok : bool;
  element_click_ok : bool;
  script_click_ok : bool
}.

(** What the browser shows when there is nothing to show. *)
Definition blank_page : page :=
  {| results := None; pagination := None; script_ok := true;
     element_click_ok := true; script_click_ok := true |}.

(** The search site: whether the age button becomes clickable within
    the wait, whether the search form is there, and the result pages in
    order, each reached from the previous one by its next control. *)
Record site := {
  gate_present : bool;
  search_form : bool;
  listing : list page
}.

(** The page in front of the driver: the first of those still ahead. *)
Definition current (ahead : list page) : page := hd blank_page ahead.

Definition search_url : string := "https://www.justice.gov/epstein/search".

(** UTF-8 text of the single right-pointing angle quotation mark and
    of the right-pointing double angle quotation mark. *)
Definition rsaquo : string :=
  String (ascii_of_nat 226) (String (ascii_of_nat 128) (String (ascii_of_nat 186) "")).
Definition raquo : string :=
  String (ascii_of_nat 194) (String (ascii_of_nat 187) "").

(** ['next' in text or '>' in text or ... ] for [text = t.lower()] *)
Definition next_text (t : string) : bool :=
  let text := lower t in
  contains text "next" || contains text ">"
  || contains text rsaquo || contains text raquo.

(** [button.is_enabled() and button.get_attribute('disabled') is None] *)
Definition usable (b : button) : bool :=
  btn_enabled b &&
  match btn_disabled b with None => true | Some _ => false end.

Definition has_next_page (p : page) : bool :=
  match pagination p with
  | None => false
  | Some (next_buttons, next_links) =>
      if existsb (fun b => next_text (btn_text b) && usable b) next_buttons
      then true
      else existsb (fun l => next_text (a_text l)) next_links
  end.

(** What happens to the control that was found: the scroll script,
    then the click of the element, and the click script when that
    raises.  The scroll script raising, or both clicks raising, ends in
    the outer handler, which returns [False]. *)
Definition scroll_and_click (p : page) : bool :=
  script_ok p && (element_click_ok p || script_click_ok p).

(** [True] when a next control was found and clicked. *)
Definition click_next_page (p : page) : bool :=
  match pagination p with
  | None => false
  | Some (next_buttons, next_links) =>
      if existsb (fun b => next_text (btn_text b) && usable b) next_buttons
      then scroll_and_click p
      else if existsb (fun l => next_text (a_text l)) next_links
      then scroll_and_click p
      else false
  end.

Definition extract_pdf_urls (p : page) : list string :=
  match results p with
  | None => []
  | Some links =>
      fold_left
        (fun pdf_urls link =>
           match a_href link with
           | AttrValue href =>
               if truthy href && endswith href ".pdf"
               then pdf_urls ++ [href]
               else pdf_urls
           | AttrNone | AttrRaises => pdf_urls
           end)
        links []
  end.

(** Where a run stands: the value of [page_num], the number of the
    listing page in front of the driver, and the pages from that one
    on. *)
Record cursor := {
  page_num : Z;
  position : Z;
  ahead : list page
}.

(** The first loop: [Some] cursor when the loop ends, [None] when
    [click_next_page] fails and the function returns [all_urls]. *)
Fixpoint skip_pages (start_page : Z) (num pos : Z) (pages : list page)
         (tr : list event) : option cursor * list event :=
  match pages with
  | [] => (Some {| page_num := num; position := pos; ahead := [] |}, tr)
  | cur :: rest =>
      if (num <? start_page) && has_next_page cur then
        let tr := tr ++ [EvClickNext pos] in
        if negb (click_next_page cur) then (None, tr)
        else skip_pages start_page (num + 1) (pos + 1) rest tr
      else
        (Some {| page_num := num; position := pos; ahead := pages |}, tr)
  end.

(** [end_page is not None and page_num >= end_page] *)
Definition end_reached (end_page : option Z) (num : Z) : bool :=
  match end_page with
  | Some e => e <=? num
  | None => false
  end.

(** The second loop. *)
Fixpoint following_pages (end_page : option Z) (num pos : Z)
         (pages : list page) (urls : list string) (tr : list event)
  : list string * list event :=
  match pages with
  | [] => (urls, tr)
  | cur :: rest =>
      if has_next_page cur then
        if end_reached end_page num then (urls, tr)
        else
          let num := num + 1 in
          let tr := tr ++ [EvClickNext pos] in
          if negb (click_next_page cur) then (urls, tr)
          else
            following_pages end_page num (pos + 1) rest
              (urls ++ extract_pdf_urls (current rest))
              (tr ++ [EvExtract (pos + 1)])
      else (urls, tr)
  end.

(** [handle_age_verification] *)
Definition handle_age_verification (s : site) : bool * list event :=
  if gate_present s then (true, [EvGateWait; EvGateClick])
  else (false, [EvGateWait]).

(** [perform_search]: the missing input raises. *)
Definition perform_search (s : site) (search_string : string)
  : outcome unit * list event :=
  if search_form s then (Return tt, [EvSearch search_string])
  else (Raise TimeoutException, [EvSearch search_string]).

Definition search_and_extract (s : site) (search_string : string)
           (start_page : Z) (end_page : option Z)
  : outcome (list string) * list event :=
  let tr := [EvDriverGet search_url] in
  let tr := tr ++ snd (handle_age_verification s) in
  let '(searched, tr_search) := perform_search s search_string in
  let tr := tr ++ tr_search in
  match searched with
  | Raise e => (Raise e, tr)
  | Return _ =>
      match skip_pages start_page 1 1 (listing s) tr with
      | (None, tr) => (Return [], tr)
      | (Some r, tr) =>
          let urls := extract_pdf_urls (current (ahead r)) in
          let tr := tr ++ [EvExtract (position r)] in
          let '(urls, tr) :=
            following_pages end_page (page_num r) (position r) (ahead r)
                            urls tr in
          (Return urls, tr)
      end
  end.

(** What one anchor contributes to the result of [extract_pdf_urls]:
    its href when that ends with [.pdf], nothing otherwise. *)
Definition contribution (a : anchor) : option string :=
  match a_href a with
  | AttrValue h => if endswith h ".pdf" then Some h else None
  | _ => None
  end.

(** An event that respects the end page [e]: an extraction of a page
    up to [e], a click on a page before [e], or any other event. *)
Definition within_end (e : Z) (ev : event) : bool :=
  match ev with
  | EvExtract p => p <=? e
  | EvClickNext p => p <? e
  | _ => true
  end.

(** An event that respects the start page [b]: an extraction of a page
    from [b] on, or any other event. *)
Definition from_start (b : Z) (ev : event) : bool :=
  match ev with
  | EvExtract p => b <=? p
  | _ => true
  end.

(** The events of the two page loops. *)
Definition page_event (e : event) : bool :=
  match e with
  | EvExtract _ | EvClickNext _ => true
  | _ => false
  end.

(** [save_urls_to_file(urls, filename)]: append mode. *)
Definition save_urls_to_file (urls : list string) (filename : string)
           (fs : filesys) : filesys :=
  append_file filename (url_text urls) (mkdir_parents (parent filename) fs).

(** [search_string.replace(' ', '_')] *)
Fixpoint replace_spaces (s : string) : string :=
  match s with
  | EmptyString => EmptyString
  | String c s' =>
      String (if Ascii.eqb c " "%char then "_"%char else c) (replace_spaces s')
  end.

(** The output file when none is given. *)
Definition default_url_file (search_string : string) : string :=
  "data/" +:+ replace_spaces search_string +:+ "_urls.txt".

(** [search_pdfs(search_string, output_file, headless, start_page,
    end_page)]; [chrome] tells whether the browser starts.  The browser
    is quit when the block is left, also by an exception. *)
Definition search_pdfs (chrome : bool) (s : site) (search_string : string)
           (output_file : option string) (start_page : Z)
           (end_page : option Z) (fs : filesys)
  : outcome (list string) * filesys * list event :=
  let output_file :=
    match output_file with
    | None => default_url_file search_string
    | Some f => f
    end in
  if chrome then
    match search_and_extract s search_string start_page end_page with
    | (Return urls, tr) =>
        (Return urls,
         match urls with
         | [] => fs
         | _ => save_urls_to_file urls output_file fs
         end,
         EvChromeStart :: tr ++ [EvChromeQuit])
    | (Raise e, tr) => (Raise e, fs, EvChromeStart :: tr ++ [EvChromeQuit])
    end
  else (Raise WebDriverException, fs, []).

End Supersearcher.

(** ** downloader.py *)

Module Downloader.
Section WithLib.
Context `{PyLib}.

(** What [session.get(pdf_url, stream=True)] followed by reading the
    body gives: a [RequestException] before the file is opened
    (connection error or error status), a [RequestException] while
    the body is read, after [partial] was stored, or the whole body.
    Opening the file itself succeeds: [init] has created the directory
    and a base name has no separator. *)
Inductive fetched :=
| FetchError
| StreamError (partial : string)
| Body (content : string).

(** The network: the PDF links [extract_pdf_links] returns for a
    listing page, and the answer to a download, each depending on the
    URL and on how many requests the session has made before. *)
Record network := {
  pdf_links : nat -> string -> list string;
  fetch : nat -> string -> fetched
}.

Record state := {
  requests : nat;
  fs : filesys;
  trace : list event
}.

Record stats := {
  urls_processed : Z;
  pdfs_found : Z;
  pdfs_downloaded : Z;
  pdfs_failed : Z;
  pdfs_skipped : Z
}.

Variable net : network.
Variable output_dir : string.
(** [st_size] of a directory, which the file system decides. *)
Variable dir_size : Z.

(** [p.stat().st_size] *)
Definition st_size (p : string) (fs0 : filesys) : Z :=
  match files fs0 !! p with
  | Some content => Z.of_nat (String.length content)
  | None => dir_size
  end.

(** The downloader that [EpsteinFilesDownloader.__init__] leaves when
    the output directory is there or could be made. *)
Definition ready (fs0 : filesys) : state :=
  {| requests := 0; fs := mkdir output_dir fs0; trace := [] |}.

(** [EpsteinFilesDownloader.__init__]:
    [self.output_dir.mkdir(exist_ok=True)] comes first and may raise. *)
Definition init (fs0 : filesys) : outcome state :=
  match mkdir_exist_ok output_dir fs0 with
  | Return _ => Return (ready fs0)
  | Raise e => Raise e
  end.

(** The path a reference is stored at: [filepath] in [download_pdf]. *)
Definition destination (pdf_url : string) : string :=
  path_join output_dir (last_segment (urlparse_path pdf_url)).

Definition download_pdf (pdf_url : string) (st : state)
  : option string * state :=
  let filename := last_segment (urlparse_path pdf_url) in
  let filepath := path_join output_dir filename in
  if path_exists (fs st) filepath then (Some filepath, st)
  else
    let tr := trace st ++ [EvHttpGet pdf_url] in
    let n := S (requests st) in
    match fetch net (requests st) pdf_url with
    | FetchError =>
        (None, {| requests := n; fs := fs st; trace := tr |})
    | Body content =>
        (Some filepath,
         {| requests := n; fs := write_file filepath content (fs st);
            trace := tr ++ [EvWrite filepath] |})
    | StreamError partial =>
        let fs1 := write_file filepath partial (fs st) in
        let fs2 := if path_exists fs1 filepath then unlink filepath fs1
                   else fs1 in
        (None, {| requests := n; fs := fs2;
                  trace := tr ++ [EvWrite filepath] |})
    end.

(** The counters after one result of [download_pdf]. *)
Definition count (result : option string) (st : state) (s : stats)
  : stats :=
  match result with
  | Some p =>
      if path_exists (fs st) p then
        if 0 <? st_size p (fs st) then
          {| urls_processed := urls_processed s;
             pdfs_found := pdfs_found s;
             pdfs_downloaded := pdfs_downloaded s + 1;
             pdfs_failed := pdfs_failed s;
             pdfs_skipped := pdfs_skipped s |}
        else
          {| urls_processed := urls_processed s;
             pdfs_found := pdfs_found s;
             pdfs_downloaded := pdfs_downloaded s;
             pdfs_failed := pdfs_failed s;
             pdfs_skipped := pdfs_skipped s + 1 |}
      else
        {| urls_processed := urls_processed s;
           pdfs_found := pdfs_found s;
           pdfs_downloaded := pdfs_downloaded s;
           pdfs_failed := pdfs_failed s + 1;
           pdfs_skipped := pdfs_skipped s |}
  | None =>
      {| urls_processed := urls_processed s;
         pdfs_found := pdfs_found s;
         pdfs_downloaded := pdfs_downloaded s;
         pdfs_failed := pdfs_failed s + 1;
         pdfs_skipped := pdfs_skipped s |}
  end.

(** The inner loop of [download_from_urls]: every link of one page. *)
Fixpoint download_links (links : list string) (st : state) (s : stats)
  : state * stats :=
  match links with
  | [] => (st, s)
  | pdf_url :: rest =>
      let '(result, st) := download_pdf pdf_url st in
      download_links rest st (count result st s)
  end.

(** The three outcome counters together. *)
Definition classified (s : stats) : Z :=
  pdfs_downloaded s + pdfs_failed s + pdfs_skipped s.

Definition no_stats : stats :=
  {| urls_processed := 0; pdfs_found := 0; pdfs_downloaded := 0;
     pdfs_failed := 0; pdfs_skipped := 0 |}.

Fixpoint download_pages (url_list : list string) (st : state) (s : stats)
  : state * stats :=
  match url_list with
  | [] => (st, s)
  | url :: rest =>
      let links := pdf_links net (requests st) url in
      let st := {| requests := S (requests st); fs := fs st;
                   trace := trace st ++ [EvHttpGet url] |} in
      let s := {| urls_processed := urls_processed s + 1;
                  pdfs_found := pdfs_found s + Z.of_nat (length links);
                  pdfs_downloaded := pdfs_downloaded s;
                  pdfs_failed := pdfs_failed s;
                  pdfs_skipped := pdfs_skipped s |} in
      let '(st, s) := download_links links st s in
      download_pages rest st s
  end.

Definition download_from_urls (url_list : list string) (st : state)
  : state * stats :=
  download_pages url_list st no_stats.

End WithLib.
End Downloader.

(** ** superdownloader.py *)

Module Superdownloader.
Section WithLib.
Context `{PyLib}.

Record response := {
  status_code : Z;
  content : string
}.

(** The browser and the network as the downloader meets them.  A
    navigation is a call of [driver.get]; they are numbered from 0 in
    the order they are made, requests of the cookie-carrying session
    likewise. *)
Record web := {
  (** [uc.Chrome(...)] returns rather than raises *)
  chrome_starts : bool;
  (** navigation [k], to the given URL, returns rather than raises *)
  get_ok : nat -> string -> bool;
  (** after navigation [k] the element [age-button-yes] is located
      before the wait times out *)
  age_button : nat -> bool;
  (** clicking the button located after navigation [k] works *)
  click_ok : nat -> bool;
  (** [driver.page_source] after navigation [k]; [None]: it raises *)
  page_source : nat -> option string;
  (** request [j], for the given URL; [None]: it raises *)
  session_get : nat -> string -> option response
}.

Record state := {
  navigations : nat;
  requests : nat;
  fs : filesys;
  trace : list event
}.

Variable w : web.
Variable output_dir : string.

(** The downloader that [PDFDownloader.__init__] leaves when the
    output directory is there or could be made. *)
Definition ready (fs0 : filesys) : state :=
  {| navigations := 0; requests := 0; fs := mkdir output_dir fs0;
     trace := [] |}.

(** [PDFDownloader.__init__]: [self.output_dir.mkdir(exist_ok=True)]
    comes first and may raise. *)
Definition init (fs0 : filesys) : outcome state :=
  match mkdir_exist_ok output_dir fs0 with
  | Return _ => Return (ready fs0)
  | Raise e => Raise e
  end.

Definition extract_filename (url : string) : string :=
  unquote (last_segment (urlparse_path url)).

(** [self.driver.get(url)]: the call is made, and counted, whether it
    returns or raises. *)
Definition navigate (url : string) (st : state) : state :=
  {| navigations := S (navigations st); requests := requests st;
     fs := fs st; trace := trace st ++ [EvDriverGet url] |}.

Definition log (e : event) (st : state) : state :=
  {| navigations := navigations st; requests := requests st;
     fs := fs st; trace := trace st ++ [e] |}.

(** The inner [try] of [download_pdf], entered after navigation [k]:
    wait for the button, click it, load the URL again.  Every
    exception in it is caught by its own handler. *)
Definition age_verification (url : string) (k : nat) (st : state) : state :=
  let st := log EvGateWait st in
  if age_button w k then
    let st := log EvGateClick st in
    if click_ok w k then navigate url st else st
  else st.

Definition download_pdf (url : string) (st : state) : bool * state :=
  let filename := extract_filename url in
  let output_path := path_join output_dir filename in
  let k := navigations st in
  let st := navigate url st in
  if negb (get_ok w k url) then (false, st)
  else
    let st := age_verification url k st in
    match page_source w (navigations st - 1) with
    | None => (false, st)
    | Some source =>
        if contains (lower source) "<html" then
          let j := requests st in
          let st := {| navigations := navigations st; requests := S j;
                       fs := fs st;
                       trace := trace st ++ [EvHttpGet url] |} in
          match session_get w j url with
          | None => (false, st)
          | Some r =>
              if (status_code r =? 200) && startswith (content r) "%PDF"
              then
                if can_create output_path (fs st) then
                  (true,
                   {| navigations := navigations st;
                      requests := requests st;
                      fs := write_file output_path (content r) (fs st);
                      trace := trace st ++ [EvWrite output_path] |})
                else (false, st)
              else (false, st)
          end
        else (false, st)
    end.

(** The URLs of a URL file: stripped lines that are neither blank nor
    comments. *)
Definition url_lines (text : string) : list string :=
  fold_left
    (fun urls line =>
       let line := strip line in
       if keep_line line then urls ++ [line] else urls)
    (lines text) [].

(** The download loop shared by [download_from_file] and
    [download_from_multiple_files]. *)
Fixpoint download_each (urls : list string) (success_count : Z)
         (st : state) : Z * state :=
  match urls with
  | [] => (success_count, st)
  | url :: rest =>
      let '(ok, st) := download_pdf url st in
      download_each rest (if ok then success_count + 1 else success_count) st
  end.

(** [open(url_file, 'r')] and the reading loop. *)
Definition read_urls (url_file : string) (fs0 : filesys)
  : outcome (list string) :=
  match files fs0 !! url_file with
  | Some text => Return (url_lines text)
  | None =>
      if bool_decide (url_file ∈ dirs fs0) then Raise IsADirectoryError
      else Raise (FileNotFoundError url_file)
  end.

Definition download_from_file (url_file : string) (st : state)
  : outcome Z * state :=
  match read_urls url_file (fs st) with
  | Raise e => (Raise e, st)
  | Return urls =>
      let '(n, st) := download_each urls 0 st in (Return n, st)
  end.

(** The URLs of all files are collected before the first download. *)
Fixpoint collect_urls (url_files : list string) (fs0 : filesys)
         (all_urls : list string) : outcome (list string) :=
  match url_files with
  | [] => Return all_urls
  | url_file :: rest =>
      match read_urls url_file fs0 with
      | Raise e => Raise e
      | Return urls => collect_urls rest fs0 (all_urls ++ urls)
      end
  end.

Definition download_from_multiple_files (url_files : list string)
           (st : state) : outcome Z * state :=
  match collect_urls url_files (fs st) [] with
  | Raise e => (Raise e, st)
  | Return all_urls =>
      let '(n, st) := download_each all_urls 0 st in (Return n, st)
  end.

End WithLib.

Section Api.
Context `{PyLib}.

(** [download_pdfs(url_files, output_dir)]; [url_files] is one path or
    a list of paths.  The [headless] flag only changes the options the
    browser is started with. *)
Definition download_pdfs (w : web) (url_files : string + list string)
           (output_dir : string) (fs0 : filesys)
  : outcome Z * filesys * list event :=
  let url_files :=
    match url_files with
    | inl one => [one]
    | inr many => many
    end in
  match List.find (fun url_file => negb (path_exists fs0 url_file)) url_files with
  | Some url_file =>
      (Raise (FileNotFoundError ("URL file not found: " +:+ url_file)),
       fs0, [])
  | None =>
      match init output_dir fs0 with
      | Raise e => (Raise e, fs0, [])
      | Return st =>
          if chrome_starts w then
            let st := log EvChromeStart st in
            let '(result, st) :=
              if (length url_files =? 1)%nat
              then download_from_file w output_dir (hd "" url_files) st
              else download_from_multiple_files w output_dir url_files st in
            (result, fs st, trace st ++ [EvChromeQuit])
          else
            (Raise WebDriverException, fs st, trace st)
      end
  end.

(** [main()] on [sys.argv]: the arguments that start with [--] are
    flags, the others name URL files.  The exit code, the file system
    and the trace of the run. *)
Definition main (w : web) (argv : list string) (fs0 : filesys)
  : Z * filesys * list event :=
  if (length argv <? 2)%nat then (1, fs0, [])
  else
    let url_files :=
      List.filter (fun arg => negb (startswith arg "--")) (tl argv) in
    match url_files with
    | [] => (1, fs0, [])
    | _ =>
        match List.find (fun url_file => negb (path_exists fs0 url_file))
                        url_files with
        | Some _ => (1, fs0, [])
        | None =>
            match download_pdfs w (inr url_files) "./pdfs" fs0 with
            | (Return success_count, fs1, tr) =>
                (if 0 <? success_count then 0 else 1, fs1, tr)
            | (Raise _, fs1, tr) => (1, fs1, tr)
            end
        end
    end.

End Api.
End Superdownloader.

(** ** search_and_download.py *)

Module SearchAndDownload.
Section WithLib.
Context `{PyLib}.

(** [search_and_download]: the pair of the number of URLs found and
    the number of PDFs downloaded.  [chrome] tells whether the browser
    of the searcher starts. *)
Definition search_and_download (chrome : bool) (s : Supersearcher.site)
           (w : Superdownloader.web) (search_string output_dir : string)
           (url_file : option string) (start_page : Z) (end_page : option Z)
           (fs : filesys) : outcome (Z * Z) * filesys * list event :=
  match Supersearcher.search_pdfs chrome s search_string url_file
                                  start_page end_page fs with
  | (Raise e, fs, tr) => (Raise e, fs, tr)
  | (Return [], fs, tr) => (Return (0, 0), fs, tr)
  | (Return urls, fs, tr) =>
      let url_file :=
        match url_file with
        | None => Supersearcher.default_url_file search_string
        | Some f => f
        end in
      match Superdownloader.download_pdfs w (inl url_file) output_dir fs with
      | (Return downloaded_count, fs, tr_download) =>
          (Return (Z.of_nat (length urls), downloaded_count), fs,
           tr ++ tr_download)
      | (Raise e, fs, tr_download) => (Raise e, fs, tr ++ tr_download)
      end
  end.

End WithLib.
End SearchAndDownload.

(** ** Text beyond ASCII *)

Module Unicode.

(** A [str] that need not be ASCII, as the OCR returns it: its code
    points. *)
Definition text := list Z.

(** [c.isspace()] for a code point: the characters [str.strip()]
    removes. *)
Definition is_space (c : Z) : bool :=
  ((9 <=? c) && (c <=? 13)) || ((28 <=? c) && (c <=? 32))
  || (c =? 133) || (c =? 160) || (c =? 5760)
  || ((8192 <=? c) && (c <=? 8202))
  || (c =? 8232) || (c =? 8233) || (c =? 8239) || (c =? 8287)
  || (c =? 12288).

Fixpoint lstrip (t : text) : text :=
  match t with
  | [] => []
  | c :: t' => if is_space c then lstrip t' else t
  end.

Definition rstrip (t : text) : text := rev (lstrip (rev t)).

(** [t.strip()] *)
Definition strip (t : text) : text := rstrip (lstrip t).

Definition byte (b : Z) : ascii := ascii_of_nat (Z.to_nat b).

(** The UTF-8 bytes of one code point; [None] for a surrogate, which
    the encoder refuses, and for a number that is no code point. *)
Definition encode_point (c : Z) : option (list ascii) :=
  if c <? 0 then None
  else if c <? 128 then Some [byte c]
  else if c <? 2048 then Some [byte (192 + c / 64); byte (128 + c mod 64)]
  else if c <? 65536 then
    if (55296 <=? c) && (c <=? 57343) then None
    else Some [byte (224 + c / 4096); byte (128 + (c / 64) mod 64);
               byte (128 + c mod 64)]
  else if c <? 1114112 then
    Some [byte (240 + c / 262144); byte (128 + (c / 4096) mod 64);
          byte (128 + (c / 64) mod 64); byte (128 + c mod 64)]
  else None.

(** [t.encode('utf-8')]; [None] when it raises [UnicodeEncodeError]. *)
Fixpoint encode (t : text) : option string :=
  match t with
  | [] => Some EmptyString
  | c :: t' =>
      match encode_point c, encode t' with
      | Some bytes, Some rest => Some (string_of_list_ascii bytes +:+ rest)
      | _, _ => None
      end
  end.

(** The text of an ASCII string. *)
Definition of_string (s : string) : text :=
  map (fun c => Z.of_nat (nat_of_ascii c)) (list_ascii_of_string s).

End Unicode.

(** ** superocr.py *)

Module Superocr.

(** [name[:name.rfind('.')]] and [name[name.rfind('.') + 1:]] for a
    name that holds a dot. *)
Fixpoint before_last_dot (name : string) : string :=
  match name with
  | EmptyString => EmptyString
  | String c rest =>
      if contains rest "." then String c (before_last_dot rest)
      else EmptyString
  end.

Fixpoint after_last_dot (name : string) : string :=
  match name with
  | EmptyString => EmptyString
  | String c rest =>
      if contains rest "." then after_last_dot rest else rest
  end.

(** [PurePath.stem] on the final component of a path: the name without
    its last suffix; a dot at the start or at the end of the name
    starts no suffix. *)
Definition stem (name : string) : string :=
  if contains name "." then
    if truthy (before_last_dot name) && truthy (after_last_dot name)
    then before_last_dot name
    else name
  else name.

(** The text written for a PDF without usable text. *)
Definition empty_marker : string := "empty file".

(** [Path(output_dir) / (Path(pdf_path).stem + '.txt')], for a path
    whose text after the last ['/'] is the name of the file. *)
Definition output_file (pdf_path output_dir : string) : string :=
  path_join output_dir (stem (last_segment pdf_path) +:+ ".txt").

(** [process_pdf(pdf_path, output_dir, language)]; [ocr] is
    [get_text_from_pdf] for the language, [None] when it raises.  The
    length test counts the characters of the text.  The file is opened
    with [encoding='utf-8']: when the text cannot be encoded the write
    raises and the handler writes the marker; when the file cannot be
    opened in the [try] block the handler opens it again, and that
    raises. *)
Definition process_pdf (ocr : string -> option Unicode.text)
           (pdf_path output_dir : string) (fs : filesys)
  : outcome bool * filesys :=
  let output_file := output_file pdf_path output_dir in
  if path_exists fs output_file then (Return false, fs)
  else
    match ocr pdf_path with
    | Some text =>
        let clean_text := Unicode.strip text in
        let text :=
          if match clean_text with [] => true | _ => false end
             || (Z.of_nat (length clean_text) <? 10)
          then Unicode.of_string empty_marker else text in
        if can_create output_file fs
        then
          match Unicode.encode text with
          | Some bytes => (Return true, write_file output_file bytes fs)
          | None => (Return false, write_file output_file empty_marker fs)
          end
        else (Raise (FileNotFoundError output_file), fs)
    | None =>
        if can_create output_file fs
        then (Return false, write_file output_file empty_marker fs)
        else (Raise (FileNotFoundError output_file), fs)
    end.

End Superocr.

(** ** supermain.py *)

Module Supermain.
Section WithLib.
Context `{PyLib}.

(** The outside world of one run: what each data set page holds when
    it is scraped, and the browser and network of the download. *)
Record world := {
  scraped : string -> Superscraper.fetched;
  browser : Superdownloader.web
}.

Definition downloaded_file : string := "data/downloaded.txt".
Definition urls_file : string := "data/all_pdfs.txt".
Definition pdf_dir : string := "./pdfs".

(** [load_downloaded_datasets()] *)
Definition load_downloaded_datasets (fs : filesys) : gset Z :=
  if negb (path_exists fs downloaded_file) then ∅
  else
    fold_left
      (fun downloaded line =>
         let line := strip line in
         if isdigit line then {[int_of_digits line]} ∪ downloaded
         else downloaded)
      (lines (read_text downloaded_file fs)) ∅.

(** [save_downloaded_dataset(dataset_num)] *)
Definition save_downloaded_dataset (dataset_num : Z) (fs : filesys)
  : filesys :=
  append_file downloaded_file
    (str_of_Z dataset_num +:+ String "010"%char "")
    (mkdir (parent downloaded_file) fs).

(** [base_url.format(i)] *)
Definition dataset_url (i : Z) : string :=
  "https://www.justice.gov/epstein/doj-disclosures/data-set-"
    +:+ str_of_Z i +:+ "-files".

(** [generate_dataset_urls(start, end)]: [range(start, end + 1)]
    without the numbers already registered. *)
Definition generate_dataset_urls (start end_ : Z) (fs : filesys)
  : list string * list Z :=
  let downloaded := load_downloaded_datasets fs in
  fold_left
    (fun '(urls, dataset_numbers) i =>
       if bool_decide (i ∈ downloaded) then (urls, dataset_numbers)
       else (urls ++ [dataset_url i], dataset_numbers ++ [i]))
    (seqZ start (end_ + 1 - start)) ([], []).

(** [scrape_all_pdfs]: the dictionary from data set number to the
    URLs scraped from its page. *)
Definition scrape_all_pdfs (wd : world) (dataset_urls : list string)
           (dataset_numbers : list Z) : gmap Z (list string) :=
  fold_left
    (fun pdfs_by_dataset '(url, dataset_num) =>
       <[dataset_num := Superscraper.scrape_pdf_urls url (scraped wd url)]>
         pdfs_by_dataset)
    (zip dataset_urls dataset_numbers) ∅.

(** [sum(len(urls) for urls in pdfs_by_dataset.values())] *)
Definition total_pdfs (pdfs_by_dataset : gmap Z (list string)) : Z :=
  map_fold (fun _ urls total => total + Z.of_nat (length urls)) 0
           pdfs_by_dataset.

(** The loop that collects [all_pdf_urls] in data set order. *)
Definition all_pdf_urls (pdfs_by_dataset : gmap Z (list string))
           (dataset_numbers : list Z) : list string :=
  fold_left
    (fun urls dataset_num =>
       urls ++ default [] (pdfs_by_dataset !! dataset_num))
    dataset_numbers [].

(** [save_urls_to_file(urls, filename)]: write mode. *)
Definition save_urls_to_file (urls : list string) (filename : string)
           (fs : filesys) : filesys :=
  write_file filename (url_text urls) (mkdir (parent filename) fs).

(** The registration loop after the download. *)
Fixpoint register_all (dataset_numbers : list Z) (fs : filesys)
         (tr : list event) : filesys * list event :=
  match dataset_numbers with
  | [] => (fs, tr)
  | dataset_num :: rest =>
      register_all rest (save_downloaded_dataset dataset_num fs)
                   (tr ++ [EvMarkCompleted dataset_num])
  end.

(** The URLs a run finds for the given range: what [main] has in
    [all_pdf_urls] when it reaches the download. *)
Definition discovered (wd : world) (start end_ : Z) (fs : filesys)
  : list string :=
  let '(dataset_urls, dataset_numbers) :=
    generate_dataset_urls start end_ fs in
  all_pdf_urls (scrape_all_pdfs wd dataset_urls dataset_numbers)
               dataset_numbers.

(** [main()] on [sys.argv]: the exit code, the file system and the
    trace it leaves. *)
Definition main (wd : world) (argv : list string) (fs : filesys)
  : Z * filesys * list event :=
  match argv with
  | [_; arg1; arg2] =>
      match py_int arg1, py_int arg2 with
      | Some start, Some end_ =>
          if end_ <? start then (1, fs, [])
          else
            let '(dataset_urls, dataset_numbers) :=
              generate_dataset_urls start end_ fs in
            match dataset_urls with
            | [] => (0, fs, [])
            | _ =>
                let pdfs_by_dataset :=
                  scrape_all_pdfs wd dataset_urls dataset_numbers in
                let tr := map EvHttpGet dataset_urls in
                if total_pdfs pdfs_by_dataset =? 0 then (0, fs, tr)
                else
                  let urls := all_pdf_urls pdfs_by_dataset dataset_numbers in
                  let fs := save_urls_to_file urls urls_file fs in
                  match Superdownloader.download_pdfs
                          (browser wd) (inl urls_file) pdf_dir fs with
                  | (Return success_count, fs, tr_download) =>
                      let '(fs, tr) :=
                        register_all dataset_numbers fs (tr ++ tr_download) in
                      (if 0 <? success_count then 0 else 1, fs, tr)
                  | (Raise _, fs, tr_download) => (1, fs, tr ++ tr_download)
                  end
            end
      | _, _ => (1, fs, [])
      end
  | _ => (1, fs, [])
  end.

(** The data sets of a range that are not registered yet. *)
Definition pending (start end_ : Z) (fs : filesys) : list Z :=
  List.filter (fun i => negb (bool_decide (i ∈ load_downloaded_datasets fs)))
              (seqZ start (end_ + 1 - start)).

(** The exit code and the trace of a run. *)
Definition exit_code (r : Z * filesys * list event) : Z := fst (fst r).
Definition final_fs (r : Z * filesys * list event) : filesys := snd (fst r).
Definition final_trace (r : Z * filesys * list event) : list event := snd r.

(** What the page of one data set yields. *)
Definition scraped_urls (wd : world) (dataset_num : Z) : list string :=
  Superscraper.scrape_pdf_urls (dataset_url dataset_num)
                               (scraped wd (dataset_url dataset_num)).

End WithLib.
End Supermain.

(** ** A small instance of the library functions

    Used to run the definitions on concrete inputs.  [plain_path] is the
    path of a URL of the form [scheme://host/path], up to the first
    ['?'] or ['#']; [plain_join] keeps an absolute reference and puts a
    root-relative one after the origin of the base; [plain_int] reads a
    decimal numeral with an optional minus sign; unquoting leaves
    strings without percent escapes as they are. *)

Module Plain.

Fixpoint after_scheme (s : string) : option string :=
  match s with
  | EmptyString => None
  | String _ s' =>
      if startswith s "://"
      then Some (String.substring 3 (String.length s - 3) s)
      else after_scheme s'
  end.

Fixpoint from_slash (s : string) : string :=
  match s with
  | EmptyString => EmptyString
  | String c s' => if Ascii.eqb c "/"%char then s else from_slash s'
  end.

Fixpoint until_query (s : string) : string :=
  match s with
  | EmptyString => EmptyString
  | String c s' =>
      if Ascii.eqb c "?"%char || Ascii.eqb c "#"%char then EmptyString
      else String c (until_query s')
  end.

Definition plain_path (url : string) : string :=
  match after_scheme url with
  | Some rest => until_query (from_slash rest)
  | None => until_query url
  end.

Definition origin (url : string) : string :=
  match after_scheme url with
  | Some rest =>
      String.substring 0 (String.length url - String.length (from_slash rest)) url
  | None => EmptyString
  end.

Definition plain_join (base href : string) : string :=
  if contains href "://" then href
  else if startswith href "/" then origin base +:+ href
  else base +:+ "/" +:+ href.

Definition plain_int (s : string) : option Z :=
  match s with
  | String "-" digits =>
      if isdigit digits then Some (- int_of_digits digits) else None
  | _ => if isdigit s then Some (int_of_digits s) else None
  end.

#[export] Instance plain_lib : PyLib := {|
  urlparse_path := plain_path;
  unquote := fun s => s;
  urljoin := plain_join;
  py_int := plain_int
|}.

End Plain.


(** ** Concrete inputs *)

Module Sample.

Definition doc : string :=
  "https://www.justice.gov/epstein/files/DataSet%201/EFTA00000001.pdf".
Definition doc2 : string :=
  "https://www.justice.gov/epstein/files/DataSet%201/EFTA00000002.pdf".
Definition doc_upper : string :=
  "https://www.justice.gov/epstein/files/DataSet%201/EFTA00000003.PDF".
Definition store : string := "data/flight_logs_urls.txt".
Definition listing_url : string :=
  "https://www.justice.gov/epstein/doj-disclosures/data-set-1-files".

Definition link_to (href : string) : Supersearcher.anchor :=
  {| Supersearcher.a_text := "document";
     Supersearcher.a_href := Supersearcher.AttrValue href |}.

Definition next_button : Supersearcher.button :=
  {| Supersearcher.btn_text := "Next";
     Supersearcher.btn_enabled := true;
     Supersearcher.btn_disabled := None |}.

(** A result page with the given links and an enabled next button. *)
Definition inner_page (hrefs : list string) : Supersearcher.page :=
  {| Supersearcher.results := Some (map link_to hrefs);
     Supersearcher.pagination := Some ([next_button], []);
     Supersearcher.script_ok := true;
     Supersearcher.element_click_ok := true;
     Supersearcher.script_click_ok := true |}.

(** A result page with the given links and no next control. *)
Definition last_page (hrefs : list string) : Supersearcher.page :=
  {| Supersearcher.results := Some (map link_to hrefs);
     Supersearcher.pagination := Some ([], []);
     Supersearcher.script_ok := true;
     Supersearcher.element_click_ok := true;
     Supersearcher.script_click_ok := true |}.

(** A browser that shows the age button after the first navigation
    only, and a server that answers every request with a PDF. *)
Definition pdf_body : string := "%PDF-1.4 scanned pages".
Definition gate_page : string := "<html><body>Are you 18?</body></html>".

Definition gated_web : Superdownloader.web :=
  {| Superdownloader.chrome_starts := true;
     Superdownloader.get_ok := fun _ _ => true;
     Superdownloader.age_button := fun k => (k =? 0)%nat;
     Superdownloader.click_ok := fun _ => true;
     Superdownloader.page_source := fun _ => Some gate_page;
     Superdownloader.session_get :=
       fun _ _ => Some {| Superdownloader.status_code := 200;
                          Superdownloader.content := pdf_body |} |}.

(** A server that answers every request with the gate page. *)
Definition html_web : Superdownloader.web :=
  {| Superdownloader.chrome_starts := true;
     Superdownloader.get_ok := fun _ _ => true;
     Superdownloader.age_button := fun k => (k =? 0)%nat;
     Superdownloader.click_ok := fun _ => true;
     Superdownloader.page_source := fun _ => Some gate_page;
     Superdownloader.session_get :=
       fun _ _ => Some {| Superdownloader.status_code := 200;
                          Superdownloader.content := gate_page |} |}.

(** The network of the plain downloader answering every download with
    the gate page, and answering with a PDF. *)
Definition html_net : Downloader.network :=
  {| Downloader.pdf_links := fun _ _ => [doc; doc2];
     Downloader.fetch := fun _ _ => Downloader.Body gate_page |}.

Definition pdf_net : Downloader.network :=
  {| Downloader.pdf_links := fun _ _ => [doc; doc2];
     Downloader.fetch := fun _ _ => Downloader.Body pdf_body |}.

(** A disk that already holds the first document. *)
Definition disk_with_doc : filesys :=
  write_file "./pdfs/EFTA00000001.pdf" pdf_body (mkdir "./pdfs" empty_fs).


Definition fruitful_world : Supermain.world :=
  {| Supermain.scraped := fun _ => Some [doc; doc2];
     Supermain.browser := gated_web |}.

(** A browser that does not start, and the world of the two documents
    with that browser. *)
Definition dead_web : Superdownloader.web :=
  {| Superdownloader.chrome_starts := false;
     Superdownloader.get_ok := fun _ _ => true;
     Superdownloader.age_button := fun _ => false;
     Superdownloader.click_ok := fun _ => true;
     Superdownloader.page_source := fun _ => Some gate_page;
     Superdownloader.session_get := fun _ _ => None |}.

Definition stalled_world : Supermain.world :=
  {| Supermain.scraped := fun _ => Some [doc; doc2];
     Supermain.browser := dead_web |}.

(** A search whose only result page links the two documents. *)
Definition small_site : Supersearcher.site :=
  {| Supersearcher.gate_present := true; Supersearcher.search_form := true;
     Supersearcher.listing := [last_page [doc; doc2]] |}.

(** An OCR that reads a page of text from every file, one that reads
    six accented letters (U+00E9), and one that always fails. *)
Definition ocr_reads : string -> option Unicode.text :=
  fun _ => Some (Unicode.of_string "Flight log, page 1 of 3").
Definition ocr_accents : string -> option Unicode.text :=
  fun _ => Some [233; 233; 233; 233; 233; 233].
Definition ocr_fails : string -> option Unicode.text := fun _ => None.

End Sample.

(** * Properties *)

(** ** Text of URL files *)

Section UrlText.

Lemma lines_terminated u rest :
  no_newline u = true ->
  lines (u +:+ String "010"%char rest) = u :: lines rest.
Proof.
  induction u as [|c u IH]; intros Hu; simpl.
  - reflexivity.
  - unfold no_newline in Hu. simpl in Hu.
    apply andb_true_iff in Hu as [Hc Hu].
    apply negb_true_iff in Hc. rewrite Hc.
    rewrite IH by exact Hu. reflexivity.
Qed.

Lemma append_assoc (a b c : string) : (a +:+ b) +:+ c = a +:+ (b +:+ c).
Proof.
  induction a as [|x a IH]; [reflexivity|].
  change (String x ((a +:+ b) +:+ c) = String x (a +:+ b +:+ c)).
  now f_equal.
Qed.

Lemma url_text_app a b : url_text (a ++ b) = url_text a +:+ url_text b.
Proof.
  induction a as [|u a IH]; [reflexivity|].
  cbn [url_text app]. now rewrite IH, append_assoc.
Qed.

Lemma lines_url_text urls :
  Forall (fun u => url_line u = true) urls ->
  lines (url_text urls) = urls.
Proof.
  induction 1 as [|u urls Hu _ IH]; simpl; [reflexivity|].
  unfold url_line in Hu. repeat (apply andb_true_iff in Hu as [Hu ?]).
  rewrite lines_terminated by assumption. now rewrite IH.
Qed.

Lemma read_loop_filter ls acc :
  fold_left
    (fun urls line =>
       let line := strip line in
       if keep_line line then urls ++ [line] else urls) ls acc
  = acc ++ filter (fun l => keep_line l = true) (map strip ls).
Proof.
  revert acc. induction ls as [|l ls IH]; intros acc; simpl.
  - now rewrite app_nil_r.
  - rewrite IH, filter_cons.
    destruct (keep_line (strip l)) eqn:E.
    + rewrite decide_True by reflexivity. now rewrite <- app_assoc.
    + rewrite decide_False by discriminate. reflexivity.
Qed.

Lemma url_lines_filter text :
  Superdownloader.url_lines text
  = filter (fun l => keep_line l = true) (map strip (lines text)).
Proof. unfold Superdownloader.url_lines. now rewrite read_loop_filter. Qed.

Lemma url_lines_url_text urls :
  Forall (fun u => url_line u = true) urls ->
  Superdownloader.url_lines (url_text urls) = urls.
Proof.
  intros Hall. rewrite url_lines_filter, lines_url_text by exact Hall.
  induction Hall as [|u urls Hu _ IH]; simpl; [reflexivity|].
  unfold url_line in Hu.
  apply andb_true_iff in Hu as [Hu Hhash].
  apply andb_true_iff in Hu as [Hu Hnl].
  apply andb_true_iff in Hu as [Hstrip Hne].
  apply String.eqb_eq in Hstrip. rewrite Hstrip.
  rewrite filter_cons, decide_True.
  - now rewrite IH.
  - unfold keep_line. now rewrite Hne, Hhash.
Qed.

Lemma read_append p text fs :
  read_text p (append_file p text fs) = read_text p fs +:+ text.
Proof.
  unfold append_file, read_text, write_file. simpl.
  now rewrite lookup_insert_eq.
Qed.

Lemma read_write p text fs : read_text p (write_file p text fs) = text.
Proof. unfold read_text, write_file. simpl. now rewrite lookup_insert_eq. Qed.

End UrlText.

(** ** The reference store (C2) *)

Section ReferenceStore.

Import Sample.

(** C2, counterexample.  Appending a list that holds the same URL twice
    to an empty store writes it twice: reading the file back yields the
    URL two times, so the read is not free of duplicates. *)
Lemma save_urls_keeps_duplicates :
  Superdownloader.url_lines
    (read_text store (Supersearcher.save_urls_to_file [doc; doc] store empty_fs))
  = [doc; doc]
  /\ ~ NoDup (Superdownloader.url_lines
                (read_text store
                   (Supersearcher.save_urls_to_file [doc; doc] store empty_fs))).
Proof.
  assert (E : Superdownloader.url_lines
                (read_text store
                   (Supersearcher.save_urls_to_file [doc; doc] store empty_fs))
              = [doc; doc]) by (vm_compute; reflexivity).
  split; [exact E|].
  rewrite E. intros Hnd. apply NoDup_cons in Hnd as [Hin _].
  apply Hin. left.
Qed.

(** C2, as amended.  [save_urls_to_file] of the searcher appends every
    URL of its input, in order and with its duplicates, after what the
    file already holds: for URLs that are well-formed lines, reading
    the file back gives the URLs stored before followed by the whole
    input list.  The variant of the orchestrator replaces the file by
    the input list. *)
Theorem save_urls_appends_every_url (prev urls : list string)
        (filename : string) (fs : filesys) :
  Forall (fun u => url_line u = true) prev ->
  Forall (fun u => url_line u = true) urls ->
  read_text filename fs = url_text prev ->
  Superdownloader.url_lines
    (read_text filename (Supersearcher.save_urls_to_file urls filename fs))
  = prev ++ urls
  /\ Superdownloader.url_lines
       (read_text filename (Supermain.save_urls_to_file urls filename fs))
     = urls.
Proof.
  intros Hprev Hurls Hold. split.
  - unfold Supersearcher.save_urls_to_file. rewrite read_append.
    change (read_text filename (mkdir_parents (parent filename) fs))
      with (read_text filename fs).
    rewrite Hold, <- url_text_app.
    apply url_lines_url_text, Forall_app; auto.
  - unfold Supermain.save_urls_to_file. rewrite read_write.
    now apply url_lines_url_text.
Qed.

Lemma save_urls_appends_every_url_witness :
  Superdownloader.url_lines
    (read_text store
       (Supersearcher.save_urls_to_file [doc; doc] store
          (write_file store (url_text [doc]) empty_fs)))
  = [doc] ++ [doc; doc]
  /\ Superdownloader.url_lines
       (read_text store
          (Supermain.save_urls_to_file [doc; doc] store
             (write_file store (url_text [doc]) empty_fs)))
     = [doc; doc].
Proof.
  apply (save_urls_appends_every_url [doc] [doc; doc] store
           (write_file store (url_text [doc]) empty_fs)).
  - repeat constructor.
  - repeat constructor.
  - vm_compute. reflexivity.
Defined.

End ReferenceStore.

(** ** The extraction rule (C9) *)

Section Extraction.
Context `{PyLib}.

Lemma collect_fold {A B : Type} (keep : A -> bool) (f : A -> B) (l : list A)
      (acc : list B) :
  fold_left (fun out x => if keep x then out ++ [f x] else out) l acc
  = acc ++ map f (List.filter keep l).
Proof.
  revert acc. induction l as [|x l IH]; intros acc; simpl.
  - now rewrite app_nil_r.
  - rewrite IH. destruct (keep x); simpl; [now rewrite <- app_assoc | reflexivity].
Qed.

Lemma endswith_truthy s : endswith s ".pdf" = true -> truthy s = true.
Proof. destruct s; [discriminate | reflexivity]. Qed.

Lemma scrape_pdf_urls_filter url hrefs :
  Superscraper.scrape_pdf_urls url (Some hrefs)
  = map (urljoin url) (List.filter (fun h => endswith h ".pdf") hrefs).
Proof. unfold Superscraper.scrape_pdf_urls. now rewrite collect_fold. Qed.

Lemma extract_loop links acc :
  fold_left
    (fun pdf_urls link =>
       match Supersearcher.a_href link with
       | Supersearcher.AttrValue href =>
           if truthy href && endswith href ".pdf"
           then pdf_urls ++ [href] else pdf_urls
       | _ => pdf_urls
       end) links acc
  = acc ++ omap Supersearcher.contribution links.
Proof.
  revert acc. induction links as [|a links IH]; intros acc; simpl.
  - now rewrite app_nil_r.
  - rewrite IH. unfold Supersearcher.contribution at 2.
    destruct (Supersearcher.a_href a) as [| |h]; try reflexivity.
    destruct (endswith h ".pdf") eqn:E.
    + rewrite (endswith_truthy _ E). simpl. now rewrite <- app_assoc.
    + now rewrite andb_false_r.
Qed.

Lemma extract_pdf_urls_links p links :
  Supersearcher.results p = Some links ->
  Supersearcher.extract_pdf_urls p = omap Supersearcher.contribution links.
Proof.
  intros Hres. unfold Supersearcher.extract_pdf_urls. rewrite Hres.
  apply extract_loop.
Qed.

(** C9, as amended.  A URL is in the result of [extract_pdf_urls]
    exactly when some anchor of the results container has it as its
    browser-resolved href and it ends with [.pdf], compared as it is
    (case-sensitively); a URL is in the result of [scrape_pdf_urls]
    exactly when it is the resolution, against the page URL, of an href
    that itself ends with [.pdf], again compared as it is. *)
Theorem extraction_rule_case_sensitive :
  (forall (p : Supersearcher.page) (u : string),
      u ∈ Supersearcher.extract_pdf_urls p <->
      exists links a,
        Supersearcher.results p = Some links /\ a ∈ links
        /\ Supersearcher.a_href a = Supersearcher.AttrValue u
        /\ endswith u ".pdf" = true)
  /\ (forall (url : string) (hrefs : list string) (u : string),
         u ∈ Superscraper.scrape_pdf_urls url (Some hrefs) <->
         exists h, h ∈ hrefs /\ endswith h ".pdf" = true /\ u = urljoin url h).
Proof.
  split.
  - intros p u. destruct (Supersearcher.results p) as [links|] eqn:Hres.
    + rewrite (extract_pdf_urls_links p links Hres), list_elem_of_omap. split.
      * intros (a & Ha & Hu). exists links, a. unfold Supersearcher.contribution in Hu.
        destruct (Supersearcher.a_href a) as [| |h]; try discriminate.
        destruct (endswith h ".pdf") eqn:E; [|discriminate].
        injection Hu as <-. auto.
      * intros (links' & a & Heq & Ha & Hhref & Hend).
        injection Heq as <-. exists a. split; [exact Ha|].
        unfold Supersearcher.contribution. now rewrite Hhref, Hend.
    + unfold Supersearcher.extract_pdf_urls. rewrite Hres. split.
      * intros Hin. inversion Hin.
      * intros (links & a & Heq & _). discriminate.
  - intros url hrefs u. rewrite scrape_pdf_urls_filter, list_elem_of_fmap. split.
    + intros (h & -> & Hin). apply list_elem_of_In, filter_In in Hin as [Hin Hend].
      exists h. split; [now apply list_elem_of_In | auto].
    + intros (h & Hin & Hend & ->). exists h. split; [reflexivity|].
      apply list_elem_of_In, filter_In. split; [now apply list_elem_of_In | exact Hend].
Qed.

End Extraction.

(** C9, counterexample.  An anchor whose resolved href ends in [.PDF]
    ends with the document suffix when compared case-insensitively, yet
    neither extraction function counts it. *)
Lemma uppercase_suffix_not_extracted :
  endswith (lower Sample.doc_upper) ".pdf" = true
  /\ Supersearcher.extract_pdf_urls (Sample.last_page [Sample.doc_upper]) = []
  /\ @Superscraper.scrape_pdf_urls Plain.plain_lib Sample.listing_url (Some [Sample.doc_upper]) = [].
Proof. repeat split; vm_compute; reflexivity. Qed.

(** ** Page traversal (C4, C5) *)

Section Traversal.
Import Supersearcher.

Lemma click_has_next p : click_next_page p = true -> has_next_page p = true.
Proof.
  unfold click_next_page, has_next_page.
  destruct (pagination p) as [[buttons links]|]; [|discriminate].
  destruct (existsb _ buttons); [reflexivity|].
  destruct (existsb _ links); [reflexivity | discriminate].
Qed.

(** One turn of the first loop on a page whose next control works. *)
Lemma skip_pages_step start_page num pos cur rest tr :
  num < start_page -> click_next_page cur = true ->
  skip_pages start_page num pos (cur :: rest) tr
  = skip_pages start_page (num + 1) (pos + 1) rest (tr ++ [EvClickNext pos]).
Proof.
  intros Hlt Hclick. simpl.
  rewrite (proj2 (Z.ltb_lt _ _) Hlt), (click_has_next _ Hclick), Hclick.
  reflexivity.
Qed.

(** The first loop ends as soon as [page_num] is the start page. *)
Lemma skip_pages_done start_page num pos pages tr :
  start_page <= num ->
  skip_pages start_page num pos pages tr
  = (Some {| page_num := num; position := pos; ahead := pages |}, tr).
Proof.
  intros Hle. destruct pages as [|cur rest]; simpl; [reflexivity|].
  now rewrite (proj2 (Z.ltb_ge _ _) Hle).
Qed.

(** One turn of the second loop on a page whose next control works. *)
Lemma following_pages_step end_page num pos cur rest urls tr :
  end_reached end_page num = false -> click_next_page cur = true ->
  following_pages end_page num pos (cur :: rest) urls tr
  = following_pages end_page (num + 1) (pos + 1) rest
      (urls ++ extract_pdf_urls (current rest))
      (tr ++ [EvClickNext pos] ++ [EvExtract (pos + 1)]).
Proof.
  intros Hend Hclick. simpl.
  rewrite (click_has_next _ Hclick), Hend, Hclick. simpl.
  now rewrite <- app_assoc.
Qed.

(** The second loop stops at the end page without a click. *)
Lemma following_pages_end end_page num pos pages urls tr :
  end_reached end_page num = true ->
  following_pages end_page num pos pages urls tr = (urls, tr).
Proof.
  intros Hend. destruct pages as [|cur rest]; simpl; [reflexivity|].
  rewrite Hend. now destruct (has_next_page cur).
Qed.

(** C4.  On a listing of five pages, each but the last with a next
    control that works, discovery from page 2 to page 4 extracts pages
    2, 3 and 4 in that order and clicks next on pages 1, 2 and 3 only:
    never on page 4. *)
Theorem pagination_bound_pages_2_to_4 (gate : bool) (query : string)
        (p1 p2 p3 p4 p5 : page) :
  click_next_page p1 = true -> click_next_page p2 = true ->
  click_next_page p3 = true -> click_next_page p4 = true ->
  has_next_page p5 = false ->
  search_and_extract
    {| gate_present := gate; search_form := true;
       listing := [p1; p2; p3; p4; p5] |} query 2 (Some 4)
  = (Return (extract_pdf_urls p2 ++ extract_pdf_urls p3 ++ extract_pdf_urls p4),
     [EvDriverGet search_url; EvGateWait]
       ++ (if gate then [EvGateClick] else [])
       ++ [EvSearch query;
           EvClickNext 1; EvExtract 2;
           EvClickNext 2; EvExtract 3;
           EvClickNext 3; EvExtract 4]).
Proof.
  intros H1 H2 H3 H4 H5. unfold search_and_extract, perform_search.
  cbn [search_form listing gate_present handle_age_verification].
  rewrite skip_pages_step by (try lia; assumption).
  rewrite skip_pages_done by lia.
  cbn [ahead position page_num current hd].
  rewrite following_pages_step by (try reflexivity; assumption).
  rewrite following_pages_step by (try reflexivity; assumption).
  rewrite following_pages_end by reflexivity.
  cbn [current hd]. destruct gate; simpl; now rewrite <- !app_assoc.
Qed.

End Traversal.

Lemma pagination_bound_pages_2_to_4_witness :
  Supersearcher.search_and_extract
    {| Supersearcher.gate_present := true; Supersearcher.search_form := true;
       Supersearcher.listing :=
         [Sample.inner_page []; Sample.inner_page [Sample.doc];
          Sample.inner_page [Sample.doc_upper]; Sample.inner_page [Sample.doc2];
          Sample.last_page []] |}
    "flight logs" 2 (Some 4)
  = (Return [Sample.doc; Sample.doc2],
     [EvDriverGet Supersearcher.search_url; EvGateWait; EvGateClick;
      EvSearch "flight logs";
      EvClickNext 1; EvExtract 2; EvClickNext 2; EvExtract 3;
      EvClickNext 3; EvExtract 4]).
Proof.
  apply (pagination_bound_pages_2_to_4 true "flight logs"
           (Sample.inner_page []) (Sample.inner_page [Sample.doc])
           (Sample.inner_page [Sample.doc_upper]) (Sample.inner_page [Sample.doc2])
           (Sample.last_page [])); reflexivity.
Defined.

(** C5 at a listing that ends before the start page.  The listing has
    one page, with one document link and no next control; discovery is
    asked to start at page 2.  The first loop ends at once, and the
    page in front of the driver, page 1, is extracted. *)
Lemma start_page_past_the_listing_extracts_last_page :
  Supersearcher.search_and_extract
    {| Supersearcher.gate_present := false; Supersearcher.search_form := true;
       Supersearcher.listing := [Sample.last_page [Sample.doc]] |}
    "flight logs" 2 None
  = (Return [Sample.doc],
     [EvDriverGet Supersearcher.search_url; EvGateWait;
      EvSearch "flight logs"; EvExtract 1]).
Proof. vm_compute. reflexivity. Qed.

(** ** The interactive gate (C6) *)

Section Gate.
Context `{PyLib}.

Lemma gate_clicks_app a b : gate_clicks (a ++ b) = (gate_clicks a + gate_clicks b)%nat.
Proof. unfold gate_clicks. now rewrite List.filter_app, length_app. Qed.

Lemma skip_pages_events start_page num pos pages tr :
  exists new,
    snd (Supersearcher.skip_pages start_page num pos pages tr) = tr ++ new
    /\ forallb Supersearcher.page_event new = true.
Proof.
  revert num pos tr. induction pages as [|cur rest IH]; intros num pos tr; simpl.
  - exists []. now rewrite app_nil_r.
  - destruct ((num <? start_page) && Supersearcher.has_next_page cur).
    + destruct (Supersearcher.click_next_page cur); simpl.
      * destruct (IH (num + 1) (pos + 1) (tr ++ [EvClickNext pos])) as (new & -> & Hnew).
        exists (EvClickNext pos :: new). now rewrite <- app_assoc.
      * exists [EvClickNext pos]. auto.
    + exists []. now rewrite app_nil_r.
Qed.

Lemma following_pages_events end_page num pos pages urls tr :
  exists new,
    snd (Supersearcher.following_pages end_page num pos pages urls tr) = tr ++ new
    /\ forallb Supersearcher.page_event new = true.
Proof.
  revert num pos urls tr.
  induction pages as [|cur rest IH]; intros num pos urls tr; simpl.
  - exists []. now rewrite app_nil_r.
  - destruct (Supersearcher.has_next_page cur); [|exists []; now rewrite app_nil_r].
    destruct (Supersearcher.end_reached end_page num); [exists []; now rewrite app_nil_r|].
    destruct (Supersearcher.click_next_page cur); simpl.
    + destruct (IH (num + 1) (pos + 1)
                   (urls ++ Supersearcher.extract_pdf_urls (Supersearcher.current rest))
                   ((tr ++ [EvClickNext pos]) ++ [EvExtract (pos + 1)]))
        as (new & -> & Hnew).
      exists (EvClickNext pos :: EvExtract (pos + 1) :: new).
      now rewrite <- !app_assoc.
    + exists [EvClickNext pos]. auto.
Qed.

(** The trace of a discovery run: the navigation, the one gate check,
    the search, and after these only page events. *)
Lemma search_and_extract_trace s query start_page end_page :
  exists pages_part,
    snd (Supersearcher.search_and_extract s query start_page end_page)
    = [EvDriverGet Supersearcher.search_url; EvGateWait]
        ++ (if Supersearcher.gate_present s then [EvGateClick] else [])
        ++ [EvSearch query] ++ pages_part
    /\ forallb Supersearcher.page_event pages_part = true.
Proof.
  unfold Supersearcher.search_and_extract, Supersearcher.perform_search,
    Supersearcher.handle_age_verification.
  destruct (Supersearcher.gate_present s), (Supersearcher.search_form s);
    cbn [snd app];
    try (exists []; split; reflexivity).
  all: match goal with
       | |- context [Supersearcher.skip_pages ?sp ?n ?p ?l ?tr] =>
           destruct (skip_pages_events sp n p l tr) as (skipped & Hskip & Hskipped);
           destruct (Supersearcher.skip_pages sp n p l tr) as [[r|] tr'];
           simpl in Hskip; subst tr'
       end.
  all: try (exists skipped; split; [reflexivity | exact Hskipped]).
  all: match goal with
       | |- context [Supersearcher.following_pages ?e ?n ?p ?l ?u ?tr] =>
           destruct (following_pages_events e n p l u tr)
             as (followed & Hfollow & Hfollowed);
           destruct (Supersearcher.following_pages e n p l u tr) as [urls tr'];
           simpl in Hfollow; subst tr'
       end.
  all: exists (skipped ++ [EvExtract (Supersearcher.position r)] ++ followed);
    split; [cbn [snd]; rewrite <- !app_assoc; reflexivity
           | rewrite !forallb_app, Hskipped, Hfollowed; reflexivity].
Qed.

Variable w : Superdownloader.web.
Variable output_dir : string.

(** What one download adds: at least one navigation, and one click of
    the button exactly when its first navigation returns and shows it. *)
Lemma download_pdf_gate url st :
  let st' := snd (Superdownloader.download_pdf w output_dir url st) in
  (Superdownloader.navigations st < Superdownloader.navigations st')%nat
  /\ gate_clicks (Superdownloader.trace st')
     = (gate_clicks (Superdownloader.trace st)
        + if Superdownloader.get_ok w (Superdownloader.navigations st) url
             && Superdownloader.age_button w (Superdownloader.navigations st)
          then 1 else 0)%nat.
Proof.
  unfold Superdownloader.download_pdf, Superdownloader.age_verification,
    Superdownloader.navigate, Superdownloader.log.
  destruct (Superdownloader.get_ok w _ url); simpl;
    [|rewrite gate_clicks_app; cbn; lia].
  destruct (Superdownloader.age_button w _); simpl.
  - destruct (Superdownloader.click_ok w _); simpl;
      repeat case_match; simpl; rewrite ?gate_clicks_app; cbn; lia.
  - repeat case_match; simpl; rewrite ?gate_clicks_app; cbn; lia.
Qed.

(** Downloads made when the button no longer shows never click it. *)
Lemma download_each_no_gate urls n st :
  (forall k, (Superdownloader.navigations st <= k)%nat ->
             Superdownloader.age_button w k = false) ->
  gate_clicks (Superdownloader.trace
                 (snd (Superdownloader.download_each w output_dir urls n st)))
  = gate_clicks (Superdownloader.trace st).
Proof.
  revert n st. induction urls as [|url rest IH]; intros n st Hno; simpl.
  - reflexivity.
  - pose proof (download_pdf_gate url st) as [Hnav Hclicks].
    destruct (Superdownloader.download_pdf w output_dir url st) as [ok st1].
    simpl in Hnav, Hclicks. rewrite IH.
    + rewrite Hclicks, (Hno (Superdownloader.navigations st)) by lia.
      rewrite andb_false_r. lia.
    + intros k Hk. apply Hno. lia.
Qed.

Lemma batch_clicks_once fs0 url rest :
  Superdownloader.get_ok w 0 url = true ->
  Superdownloader.age_button w 0 = true ->
  (forall k, k <> 0%nat -> Superdownloader.age_button w k = false) ->
  gate_clicks
    (Superdownloader.trace
       (snd (Superdownloader.download_each w output_dir (url :: rest) 0
               (Superdownloader.ready output_dir fs0)))) = 1%nat.
Proof.
  intros Hget Hbutton Hlater. simpl.
  pose proof (download_pdf_gate url (Superdownloader.ready output_dir fs0))
    as [Hnav Hclicks].
  destruct (Superdownloader.download_pdf w output_dir url _) as [ok st1].
  simpl in Hnav, Hclicks. rewrite download_each_no_gate.
  - now rewrite Hclicks, Hget, Hbutton.
  - intros k Hk. apply Hlater. lia.
Qed.

End Gate.

(** C6.  In a discovery run the age gate is checked once, right after
    the navigation to the search page and before the search and every
    extraction; and in a download batch where the button shows after
    the first navigation only, it is clicked exactly once. *)
Theorem gate_checked_once_clicked_once `{PyLib} :
  (forall (s : Supersearcher.site) (query : string) (start_page : Z)
          (end_page : option Z),
      exists pages_part,
        snd (Supersearcher.search_and_extract s query start_page end_page)
        = [EvDriverGet Supersearcher.search_url; EvGateWait]
            ++ (if Supersearcher.gate_present s then [EvGateClick] else [])
            ++ [EvSearch query] ++ pages_part
        /\ forallb Supersearcher.page_event pages_part = true)
  /\ (forall (w : Superdownloader.web) (output_dir : string) (fs0 : filesys)
             (url : string) (rest : list string),
         Superdownloader.get_ok w 0 url = true ->
         Superdownloader.age_button w 0 = true ->
         (forall k, k <> 0%nat -> Superdownloader.age_button w k = false) ->
         gate_clicks
           (Superdownloader.trace
              (snd (Superdownloader.download_each w output_dir (url :: rest) 0
                      (Superdownloader.ready output_dir fs0)))) = 1%nat).
Proof.
  split.
  - apply search_and_extract_trace.
  - intros w output_dir fs0 url rest. apply batch_clicks_once.
Qed.

Lemma gate_checked_once_clicked_once_witness :
  gate_clicks
    (Superdownloader.trace
       (snd (@Superdownloader.download_each Plain.plain_lib Sample.gated_web
               "./pdfs" [Sample.doc; Sample.doc2] 0
               (Superdownloader.ready "./pdfs" empty_fs)))) = 1%nat.
Proof.
  apply (proj2 (@gate_checked_once_clicked_once Plain.plain_lib)
           Sample.gated_web "./pdfs" empty_fs Sample.doc [Sample.doc2]).
  - reflexivity.
  - reflexivity.
  - intros k Hk. destruct k; [contradiction | reflexivity].
Defined.

(** ** Payload validation in the browser downloader (C3) *)

Section Payload.
Context `{PyLib}.
Variable w : Superdownloader.web.
Variable output_dir : string.

Lemma writes_app a b : writes (a ++ b) = (writes a + writes b)%nat.
Proof. unfold writes. now rewrite List.filter_app, length_app. Qed.

(** A download starts with the navigation to its URL and only adds to
    the trace. *)
Lemma download_pdf_attempt url st :
  exists more,
    Superdownloader.trace (snd (Superdownloader.download_pdf w output_dir url st))
    = Superdownloader.trace st ++ EvDriverGet url :: more.
Proof.
  unfold Superdownloader.download_pdf, Superdownloader.age_verification,
    Superdownloader.navigate, Superdownloader.log.
  repeat case_match; simpl; rewrite <- ?app_assoc; simpl; eauto.
Qed.

Lemma download_each_extends urls n st :
  exists more,
    Superdownloader.trace (snd (Superdownloader.download_each w output_dir urls n st))
    = Superdownloader.trace st ++ more.
Proof.
  revert n st. induction urls as [|url rest IH]; intros n st; simpl.
  - exists []. now rewrite app_nil_r.
  - destruct (download_pdf_attempt url st) as (m1 & H1).
    destruct (Superdownloader.download_pdf w output_dir url st) as [ok st1].
    simpl in H1.
    destruct (IH (if ok then n + 1 else n) st1) as (m2 & ->).
    rewrite H1, <- app_assoc. eauto.
Qed.

(** The loop goes through the whole list: every URL is navigated to. *)
Lemma download_each_attempts_all urls n st u :
  u ∈ urls ->
  EvDriverGet u
    ∈ Superdownloader.trace (snd (Superdownloader.download_each w output_dir urls n st)).
Proof.
  revert n st. induction urls as [|url rest IH]; intros n st Hin; simpl.
  - inversion Hin.
  - destruct (download_pdf_attempt url st) as (m1 & H1).
    destruct (Superdownloader.download_pdf w output_dir url st) as [ok st1].
    simpl in H1. apply elem_of_cons in Hin as [->|Hin].
    + destruct (download_each_extends rest (if ok then n + 1 else n) st1)
        as (m2 & ->).
      rewrite H1. apply elem_of_app. left. apply elem_of_app. right. left.
    + now apply IH.
Qed.

(** A download that returns [True] has stored exactly one file, and one
    that returns [False] none. *)
Lemma download_pdf_writes url st :
  writes (Superdownloader.trace (snd (Superdownloader.download_pdf w output_dir url st)))
  = (writes (Superdownloader.trace st)
     + if fst (Superdownloader.download_pdf w output_dir url st) then 1 else 0)%nat.
Proof.
  unfold Superdownloader.download_pdf, Superdownloader.age_verification,
    Superdownloader.navigate, Superdownloader.log.
  repeat case_match; simpl in *; try discriminate;
    rewrite ?writes_app; cbn; lia.
Qed.

Lemma download_each_writes urls n st :
  fst (Superdownloader.download_each w output_dir urls n st)
  = n + Z.of_nat (writes (Superdownloader.trace
                            (snd (Superdownloader.download_each w output_dir urls n st))))
      - Z.of_nat (writes (Superdownloader.trace st)).
Proof.
  revert n st. induction urls as [|url rest IH]; intros n st; simpl.
  - lia.
  - pose proof (download_pdf_writes url st) as Hw.
    destruct (Superdownloader.download_pdf w output_dir url st) as [ok st1].
    simpl in Hw. rewrite IH. destruct ok; lia.
Qed.

(** A response that does not begin with the magic bytes is not stored. *)
Lemma download_pdf_rejects url st :
  (forall r, Superdownloader.session_get w (Superdownloader.requests st) url = Some r ->
             startswith (Superdownloader.content r) "%PDF" = false) ->
  fst (Superdownloader.download_pdf w output_dir url st) = false
  /\ Superdownloader.fs (snd (Superdownloader.download_pdf w output_dir url st))
     = Superdownloader.fs st.
Proof.
  intros Hbad.
  unfold Superdownloader.download_pdf, Superdownloader.age_verification,
    Superdownloader.navigate, Superdownloader.log.
  repeat case_match; simpl in *; auto;
    match goal with
    | Hr : Superdownloader.session_get w _ url = Some ?r,
      Hv : _ && startswith (Superdownloader.content ?r) "%PDF" = true |- _ =>
        apply andb_true_iff in Hv as [_ Hv];
        rewrite (Hbad r Hr) in Hv; discriminate
    end.
Qed.

End Payload.

(** C3, counterexample.  The plain downloader is given the gate page,
    which does not begin with the magic bytes, as the body of a
    successful response: it stores it under the destination name and
    returns the path as for any download. *)
Lemma plain_downloader_stores_any_payload :
  startswith Sample.gate_page "%PDF" = false
  /\ fst (@Downloader.download_pdf Plain.plain_lib Sample.html_net "data"
            Sample.doc (Downloader.ready "data" empty_fs))
     = Some "data/EFTA00000001.pdf"
  /\ files (Downloader.fs
              (snd (@Downloader.download_pdf Plain.plain_lib Sample.html_net "data"
                      Sample.doc (Downloader.ready "data" empty_fs))))
       !! "data/EFTA00000001.pdf"
     = Some Sample.gate_page.
Proof. repeat split; vm_compute; reflexivity. Qed.

(** C3, as amended.  In the browser downloader a response that does
    not begin with [%PDF] makes [download_pdf] return [False] and leave
    every file as it was: nothing is written at the destination path,
    and nothing that was there before is removed.  The batch goes on:
    whatever the earlier results, every URL of the list is navigated
    to.  (The plain downloader does not look at the payload.) *)
Theorem invalid_payload_is_not_stored `{PyLib} (w : Superdownloader.web)
        (output_dir : string) :
  (forall (url : string) (st : Superdownloader.state),
      (forall r,
          Superdownloader.session_get w (Superdownloader.requests st) url = Some r ->
          startswith (Superdownloader.content r) "%PDF" = false) ->
      fst (Superdownloader.download_pdf w output_dir url st) = false
      /\ Superdownloader.fs (snd (Superdownloader.download_pdf w output_dir url st))
         = Superdownloader.fs st)
  /\ (forall (urls : list string) (n : Z) (st : Superdownloader.state) (u : string),
         u ∈ urls ->
         EvDriverGet u
           ∈ Superdownloader.trace
               (snd (Superdownloader.download_each w output_dir urls n st))).
Proof.
  split.
  - intros url st. apply download_pdf_rejects.
  - intros urls n st u. apply download_each_attempts_all.
Qed.

Lemma invalid_payload_is_not_stored_witness :
  fst (@Superdownloader.download_pdf Plain.plain_lib Sample.html_web "./pdfs"
         Sample.doc (Superdownloader.ready "./pdfs" empty_fs)) = false
  /\ Superdownloader.fs
       (snd (@Superdownloader.download_pdf Plain.plain_lib Sample.html_web "./pdfs"
               Sample.doc (Superdownloader.ready "./pdfs" empty_fs)))
     = Superdownloader.fs (Superdownloader.ready "./pdfs" empty_fs).
Proof.
  apply (proj1 (@invalid_payload_is_not_stored Plain.plain_lib Sample.html_web "./pdfs")
           Sample.doc (Superdownloader.ready "./pdfs" empty_fs)).
  intros r Hr. injection Hr as <-. reflexivity.
Defined.

(** ** Files already present (C1) *)

Section Present.
Context `{PyLib}.
Variable net : Downloader.network.
Variable output_dir : string.
Variable dir_size : Z.

Lemma download_pdf_present url st :
  path_exists (Downloader.fs st) (Downloader.destination output_dir url) = true ->
  Downloader.download_pdf net output_dir url st = (Some (Downloader.destination output_dir url), st).
Proof.
  intros Hex. unfold Downloader.download_pdf. fold (Downloader.destination output_dir url).
  now rewrite Hex.
Qed.

Lemma path_exists_write p q content fs :
  path_exists fs p = true -> path_exists (write_file q content fs) p = true.
Proof.
  unfold path_exists, write_file. simpl. intros Hex.
  apply orb_true_iff in Hex as [Hex|Hex]; apply orb_true_iff; [left|right; exact Hex].
  apply bool_decide_eq_true in Hex. apply bool_decide_eq_true.
  destruct (decide (q = p)) as [->|Hne].
  - rewrite lookup_insert_eq. eauto.
  - now rewrite lookup_insert_ne.
Qed.

Lemma path_exists_unlink p q fs :
  p <> q -> path_exists fs p = true -> path_exists (unlink q fs) p = true.
Proof.
  unfold path_exists, unlink. simpl. intros Hne Hex.
  apply orb_true_iff in Hex as [Hex|Hex]; apply orb_true_iff; [left|right; exact Hex].
  apply bool_decide_eq_true in Hex. apply bool_decide_eq_true.
  now rewrite lookup_delete_ne.
Qed.

(** A download never removes what was on disk before it. *)
Lemma download_pdf_keeps url st p :
  path_exists (Downloader.fs st) p = true ->
  path_exists (Downloader.fs (snd (Downloader.download_pdf net output_dir url st))) p
  = true.
Proof.
  intros Hp. unfold Downloader.download_pdf. fold (Downloader.destination output_dir url).
  destruct (path_exists (Downloader.fs st) (Downloader.destination output_dir url)) eqn:Hdest;
    [exact Hp|].
  destruct (Downloader.fetch net _ url); simpl.
  - exact Hp.
  - assert (p <> Downloader.destination output_dir url) by (intros ->; congruence).
    destruct (path_exists (write_file _ _ _) (Downloader.destination output_dir url)).
    + apply path_exists_unlink; [assumption|]. now apply path_exists_write.
    + now apply path_exists_write.
  - now apply path_exists_write.
Qed.

(** What a download adds to the trace never names a reference whose
    file is on disk. *)
Lemma download_pdf_no_refetch url st u :
  path_exists (Downloader.fs st) (Downloader.destination output_dir u) = true ->
  exists new,
    Downloader.trace (snd (Downloader.download_pdf net output_dir url st))
    = Downloader.trace st ++ new
    /\ EvHttpGet u ∉ new.
Proof.
  intros Hu. unfold Downloader.download_pdf. fold (Downloader.destination output_dir url).
  destruct (path_exists (Downloader.fs st) (Downloader.destination output_dir url)) eqn:Hdest.
  - exists []. simpl. rewrite app_nil_r. split; [reflexivity | apply not_elem_of_nil].
  - assert (Hne : url <> u) by (intros ->; congruence).
    destruct (Downloader.fetch net _ url); simpl.
    + exists [EvHttpGet url]. split; [reflexivity|].
      intros Hin. apply list_elem_of_singleton in Hin. congruence.
    + exists [EvHttpGet url; EvWrite (Downloader.destination output_dir url)]. split.
      * now rewrite <- app_assoc.
      * intros Hin. apply elem_of_cons in Hin as [Hin|Hin]; [congruence|].
        apply list_elem_of_singleton in Hin. discriminate.
    + exists [EvHttpGet url; EvWrite (Downloader.destination output_dir url)]. split.
      * now rewrite <- app_assoc.
      * intros Hin. apply elem_of_cons in Hin as [Hin|Hin]; [congruence|].
        apply list_elem_of_singleton in Hin. discriminate.
Qed.

Lemma download_links_no_refetch links st s u :
  path_exists (Downloader.fs st) (Downloader.destination output_dir u) = true ->
  exists new,
    Downloader.trace (fst (Downloader.download_links net output_dir dir_size links st s))
    = Downloader.trace st ++ new
    /\ EvHttpGet u ∉ new.
Proof.
  revert st s. induction links as [|url rest IH]; intros st s Hu; simpl.
  - exists []. rewrite app_nil_r. split; [reflexivity | apply not_elem_of_nil].
  - destruct (download_pdf_no_refetch url st u Hu) as (n1 & H1 & Hn1).
    pose proof (download_pdf_keeps url st _ Hu) as Hkeep.
    destruct (Downloader.download_pdf net output_dir url st) as [result st1].
    simpl in H1, Hkeep.
    destruct (IH st1 (Downloader.count dir_size result st1 s) Hkeep)
      as (n2 & -> & Hn2).
    exists (n1 ++ n2). rewrite H1, <- app_assoc. split; [reflexivity|].
    intros Hin. apply elem_of_app in Hin as [Hin|Hin]; auto.
Qed.

Lemma download_links_extends links st s :
  exists new,
    Downloader.trace (fst (Downloader.download_links net output_dir dir_size links st s))
    = Downloader.trace st ++ new.
Proof.
  revert st s. induction links as [|url rest IH]; intros st s; simpl.
  - exists []. now rewrite app_nil_r.
  - assert (exists n1, Downloader.trace
                         (snd (Downloader.download_pdf net output_dir url st))
                       = Downloader.trace st ++ n1) as (n1 & H1).
    { unfold Downloader.download_pdf. repeat case_match; simpl;
        rewrite <- ?app_assoc; eauto. exists []. now rewrite app_nil_r. }
    destruct (Downloader.download_pdf net output_dir url st) as [result st1].
    simpl in H1.
    destruct (IH st1 (Downloader.count dir_size result st1 s)) as (n2 & ->).
    rewrite H1, <- app_assoc. eauto.
Qed.

(** With every file on disk the loop changes nothing. *)
Lemma download_links_all_present links st s :
  (forall u, u ∈ links -> path_exists (Downloader.fs st) (Downloader.destination output_dir u) = true) ->
  fst (Downloader.download_links net output_dir dir_size links st s) = st.
Proof.
  revert s. induction links as [|url rest IH]; intros s Hall; simpl.
  - reflexivity.
  - rewrite download_pdf_present by (apply Hall; left).
    apply IH. intros u Hu. apply Hall. now right.
Qed.

End Present.

(** C1, counterexample.  The destination file of the reference is on
    disk with non-zero size, and the browser downloader still navigates
    to the URL, passes the gate, requests the document again, writes it
    again and reports a fresh success. *)
Lemma browser_downloader_fetches_present_file :
  path_exists Sample.disk_with_doc "./pdfs/EFTA00000001.pdf" = true
  /\ (0 < String.length (read_text "./pdfs/EFTA00000001.pdf" Sample.disk_with_doc))%nat
  /\ path_join "./pdfs" (@Superdownloader.extract_filename Plain.plain_lib Sample.doc)
     = "./pdfs/EFTA00000001.pdf"
  /\ fst (@Superdownloader.download_pdf Plain.plain_lib Sample.gated_web "./pdfs"
            Sample.doc (Superdownloader.ready "./pdfs" Sample.disk_with_doc)) = true
  /\ Superdownloader.trace
       (snd (@Superdownloader.download_pdf Plain.plain_lib Sample.gated_web "./pdfs"
               Sample.doc (Superdownloader.ready "./pdfs" Sample.disk_with_doc)))
     = [EvDriverGet Sample.doc; EvGateWait; EvGateClick; EvDriverGet Sample.doc;
        EvHttpGet Sample.doc; EvWrite "./pdfs/EFTA00000001.pdf"].
Proof. repeat split; vm_compute; try reflexivity. lia. Qed.

(** The browser downloader never looks at the files on disk: the
    result and the trace of [download_pdf] are the same in two states
    that differ in their files only, and the trace starts with the
    navigation to the URL. *)
Lemma browser_download_ignores_files `{PyLib} (w : Superdownloader.web)
      (output_dir url : string) (st st' : Superdownloader.state) :
  Superdownloader.navigations st = Superdownloader.navigations st' ->
  Superdownloader.requests st = Superdownloader.requests st' ->
  Superdownloader.trace st = Superdownloader.trace st' ->
  dirs (Superdownloader.fs st) = dirs (Superdownloader.fs st') ->
  fst (Superdownloader.download_pdf w output_dir url st)
  = fst (Superdownloader.download_pdf w output_dir url st')
  /\ Superdownloader.trace (snd (Superdownloader.download_pdf w output_dir url st))
     = Superdownloader.trace (snd (Superdownloader.download_pdf w output_dir url st')).
Proof.
  destruct st as [n r [fl ds] tr], st' as [n' r' [fl' ds'] tr'].
  cbn [Superdownloader.navigations Superdownloader.requests
       Superdownloader.trace Superdownloader.fs dirs].
  intros <- <- <- <-.
  unfold Superdownloader.download_pdf, Superdownloader.age_verification,
    Superdownloader.navigate, Superdownloader.log, can_create.
  cbn [Superdownloader.navigations Superdownloader.requests
       Superdownloader.trace Superdownloader.fs dirs].
  repeat case_match; simpl in *; try discriminate; split; congruence.
Qed.

(** What the plain downloader counts for a file that is present and not
    empty: one more under [pdfs_downloaded], none under [pdfs_skipped],
    although the summary it prints calls the latter the files that
    already exist. *)
Lemma present_file_is_counted_as_downloaded (dir_size : Z)
      (p content : string) (st : Downloader.state) (s : Downloader.stats) :
  files (Downloader.fs st) !! p = Some content ->
  (0 < String.length content)%nat ->
  Downloader.pdfs_downloaded (Downloader.count dir_size (Some p) st s)
  = Downloader.pdfs_downloaded s + 1
  /\ Downloader.pdfs_skipped (Downloader.count dir_size (Some p) st s)
     = Downloader.pdfs_skipped s.
Proof.
  intros Hfile Hlen. unfold Downloader.count, path_exists.
  rewrite bool_decide_eq_true_2 by (rewrite Hfile; eauto). simpl.
  unfold Downloader.st_size. rewrite Hfile.
  rewrite (proj2 (Z.ltb_lt 0 (Z.of_nat (String.length content)))) by lia.
  simpl. split; reflexivity.
Qed.

(** C1, as amended.  Only the plain downloader skips what is present,
    and it does so whatever the size of the file.  When the destination
    path of a reference exists, its [download_pdf] returns that path
    and leaves the state as it was: no request, no write.  A run over
    references that are all present changes nothing, and a second run
    over a list requests no reference whose file the first run left on
    disk.  The browser downloader has no such check: what its
    [download_pdf] does for a reference, and what it returns, is the
    same whether or not the file is on disk, and it always starts with
    the navigation to the reference. *)
Theorem present_files_are_not_fetched `{PyLib} (net : Downloader.network)
        (w : Superdownloader.web) (output_dir : string) (dir_size : Z) :
  (forall (url : string) (st : Downloader.state),
      path_exists (Downloader.fs st) (Downloader.destination output_dir url) = true ->
      Downloader.download_pdf net output_dir url st
      = (Some (Downloader.destination output_dir url), st))
  /\ (forall (links : list string) (st : Downloader.state) (s : Downloader.stats),
         (forall u, u ∈ links ->
                    path_exists (Downloader.fs st)
                                (Downloader.destination output_dir u) = true) ->
         fst (Downloader.download_links net output_dir dir_size links st s) = st)
  /\ (forall (links : list string) (st : Downloader.state)
             (s s' : Downloader.stats),
         let st1 := fst (Downloader.download_links net output_dir dir_size links st s) in
         exists new,
           Downloader.trace
             (fst (Downloader.download_links net output_dir dir_size links st1 s'))
           = Downloader.trace st1 ++ new
           /\ forall u,
               path_exists (Downloader.fs st1)
                           (Downloader.destination output_dir u) = true ->
               EvHttpGet u ∉ new)
  /\ (forall (url : string) (st st' : Superdownloader.state),
         Superdownloader.navigations st = Superdownloader.navigations st' ->
         Superdownloader.requests st = Superdownloader.requests st' ->
         Superdownloader.trace st = Superdownloader.trace st' ->
         dirs (Superdownloader.fs st) = dirs (Superdownloader.fs st') ->
         fst (Superdownloader.download_pdf w output_dir url st)
         = fst (Superdownloader.download_pdf w output_dir url st')
         /\ Superdownloader.trace
              (snd (Superdownloader.download_pdf w output_dir url st))
            = Superdownloader.trace
                (snd (Superdownloader.download_pdf w output_dir url st'))
         /\ exists more,
             Superdownloader.trace
               (snd (Superdownloader.download_pdf w output_dir url st))
             = Superdownloader.trace st ++ EvDriverGet url :: more).
Proof.
  split; [|split; [|split]].
  - intros url st. apply download_pdf_present.
  - intros links st s. apply download_links_all_present.
  - intros links st s s' st1.
    destruct (download_links_extends net output_dir dir_size links st1 s')
      as (new & Hnew).
    exists new. split; [exact Hnew|]. intros u Hu.
    destruct (download_links_no_refetch net output_dir dir_size links st1 s' u Hu)
      as (new' & Hnew' & Hnot).
    rewrite Hnew in Hnew'. apply app_inv_head in Hnew'. now subst new'.
  - intros url st st' Hn Hr Ht Hd.
    destruct (browser_download_ignores_files w output_dir url st st' Hn Hr Ht Hd)
      as [Hres Htr].
    split; [exact Hres|]. split; [exact Htr|].
    apply download_pdf_attempt.
Qed.

Lemma present_files_are_not_fetched_witness :
  @Downloader.download_pdf Plain.plain_lib Sample.pdf_net "./pdfs" Sample.doc
    {| Downloader.requests := 0; Downloader.fs := Sample.disk_with_doc;
       Downloader.trace := [] |}
  = (Some (@Downloader.destination Plain.plain_lib "./pdfs" Sample.doc),
     {| Downloader.requests := 0; Downloader.fs := Sample.disk_with_doc;
        Downloader.trace := [] |}).
Proof.
  apply (proj1 (@present_files_are_not_fetched Plain.plain_lib Sample.pdf_net
                  Sample.gated_web "./pdfs" 4096)).
  vm_compute. reflexivity.
Defined.

(** ** The precondition of [download_pdfs] (C10) *)

(** C10.  When one of the named URL files does not exist,
    [download_pdfs] raises [FileNotFoundError] with a message that names
    a missing file; the output directory has not been created, the
    browser has not been started and nothing has been downloaded or
    written: the file system is the one the call found and the trace is
    empty. *)
Theorem missing_url_file_raises_first `{PyLib} (w : Superdownloader.web)
        (url_files : string + list string) (output_dir : string)
        (fs0 : filesys) :
  (exists f,
      f ∈ match url_files with inl one => [one] | inr many => many end
      /\ path_exists fs0 f = false) ->
  exists f,
    f ∈ match url_files with inl one => [one] | inr many => many end
    /\ path_exists fs0 f = false
    /\ Superdownloader.download_pdfs w url_files output_dir fs0
       = (Raise (FileNotFoundError ("URL file not found: " +:+ f)), fs0, []).
Proof.
  intros (f & Hin & Hmissing). unfold Superdownloader.download_pdfs.
  set (named := match url_files with inl one => [one] | inr many => many end) in *.
  destruct (List.find (fun url_file => negb (path_exists fs0 url_file)) named)
    as [g|] eqn:Hfind.
  - apply find_some in Hfind as [Hg Hgone].
    exists g. repeat split.
    + now apply list_elem_of_In.
    + now apply negb_true_iff.
  - apply list_elem_of_In in Hin.
    pose proof (find_none _ _ Hfind f Hin) as Hf. simpl in Hf.
    rewrite Hmissing in Hf. discriminate.
Qed.

Lemma missing_url_file_raises_first_witness :
  exists f,
    f ∈ ["data/all_pdfs.txt"; "data/missing.txt"]
    /\ path_exists (write_file "data/all_pdfs.txt" (url_text [Sample.doc]) empty_fs) f
       = false
    /\ @Superdownloader.download_pdfs Plain.plain_lib Sample.gated_web
         (inr ["data/all_pdfs.txt"; "data/missing.txt"]) "./pdfs"
         (write_file "data/all_pdfs.txt" (url_text [Sample.doc]) empty_fs)
       = (Raise (FileNotFoundError ("URL file not found: " +:+ f)),
          write_file "data/all_pdfs.txt" (url_text [Sample.doc]) empty_fs, []).
Proof.
  apply (@missing_url_file_raises_first Plain.plain_lib Sample.gated_web
           (inr ["data/all_pdfs.txt"; "data/missing.txt"]) "./pdfs"
           (write_file "data/all_pdfs.txt" (url_text [Sample.doc]) empty_fs)).
  exists "data/missing.txt". split.
  - right. left.
  - vm_compute. reflexivity.
Defined.

(** ** The orchestrator (C7, C8) *)

Section Orchestrator.
Context `{PyLib}.
Import Supermain.

Lemma marks_app a b : marks (a ++ b) = (marks a + marks b)%nat.
Proof. unfold marks. now rewrite List.filter_app, length_app. Qed.

Lemma marks_none n tr : marks tr = 0%nat -> EvMarkCompleted n ∉ tr.
Proof.
  induction tr as [|e tr IH]; intros Hm Hin; [inversion Hin|].
  apply elem_of_cons in Hin as [<-|Hin]; [discriminate|].
  apply IH; [|exact Hin]. destruct e; try exact Hm; discriminate.
Qed.

Lemma generate_loop (downloaded : gset Z) l urls nums :
  fold_left
    (fun '(urls, dataset_numbers) i =>
       if bool_decide (i ∈ downloaded) then (urls, dataset_numbers)
       else (urls ++ [dataset_url i], dataset_numbers ++ [i]))
    l (urls, nums)
  = (urls ++ map dataset_url
                 (List.filter (fun i => negb (bool_decide (i ∈ downloaded))) l),
     nums ++ List.filter (fun i => negb (bool_decide (i ∈ downloaded))) l).
Proof.
  revert urls nums. induction l as [|i l IH]; intros urls nums; simpl.
  - now rewrite !app_nil_r.
  - destruct (bool_decide (i ∈ downloaded)); simpl; rewrite IH.
    + reflexivity.
    + now rewrite <- !app_assoc.
Qed.

Lemma generate_dataset_urls_pending start end_ fs :
  generate_dataset_urls start end_ fs
  = (map dataset_url (pending start end_ fs), pending start end_ fs).
Proof. exact (generate_loop _ _ [] []). Qed.

Lemma scrape_loop wd nums (m0 : gmap Z (list string)) k :
  fold_left
    (fun pdfs_by_dataset '(url, dataset_num) =>
       <[dataset_num := Superscraper.scrape_pdf_urls url (scraped wd url)]>
         pdfs_by_dataset)
    (zip (map dataset_url nums) nums) m0 !! k
  = if bool_decide (k ∈ nums) then Some (scraped_urls wd k) else m0 !! k.
Proof.
  revert m0. induction nums as [|n nums IH]; intros m0; simpl.
  - reflexivity.
  - rewrite IH. destruct (decide (k ∈ nums)) as [Hin|Hnin].
    + rewrite !bool_decide_eq_true_2; [reflexivity | now right | exact Hin].
    + rewrite (bool_decide_eq_false_2 (k ∈ nums)) by exact Hnin.
      destruct (decide (n = k)) as [->|Hne].
      * rewrite lookup_insert_eq, bool_decide_eq_true_2 by left. reflexivity.
      * rewrite lookup_insert_ne by exact Hne.
        rewrite bool_decide_eq_false_2; [reflexivity|].
        intros Hin. apply elem_of_cons in Hin as [->|Hin]; contradiction.
Qed.

Lemma scrape_all_pdfs_lookup wd nums k :
  scrape_all_pdfs wd (map dataset_url nums) nums !! k
  = if bool_decide (k ∈ nums) then Some (scraped_urls wd k) else None.
Proof. unfold scrape_all_pdfs. now rewrite scrape_loop, lookup_empty. Qed.

Lemma all_pdf_urls_concat (m : gmap Z (list string)) nums acc :
  fold_left (fun urls dataset_num => urls ++ default [] (m !! dataset_num)) nums acc
  = acc ++ concat (map (fun n => default [] (m !! n)) nums).
Proof.
  revert acc. induction nums as [|n nums IH]; intros acc; simpl.
  - now rewrite app_nil_r.
  - now rewrite IH, <- app_assoc.
Qed.

Lemma discovered_concat wd start end_ fs :
  discovered wd start end_ fs
  = concat (map (scraped_urls wd) (pending start end_ fs)).
Proof.
  unfold discovered. rewrite generate_dataset_urls_pending.
  unfold all_pdf_urls. rewrite all_pdf_urls_concat. simpl. f_equal.
  apply map_ext_in. intros n Hn. rewrite scrape_all_pdfs_lookup.
  rewrite bool_decide_eq_true_2 by (now apply list_elem_of_In). reflexivity.
Qed.

Lemma total_pdfs_zero (m : gmap Z (list string)) :
  total_pdfs m = 0 <-> forall k v, m !! k = Some v -> v = [].
Proof.
  unfold total_pdfs.
  cut (0 <= map_fold (fun (_ : Z) (urls : list string) total =>
                        total + Z.of_nat (length urls)) 0 m
       /\ (map_fold (fun (_ : Z) (urls : list string) total =>
                       total + Z.of_nat (length urls)) 0 m = 0
           <-> forall k v, m !! k = Some v -> v = [])); [tauto|].
  apply (map_fold_weak_ind
           (fun r (m : gmap Z (list string)) =>
              0 <= r /\ (r = 0 <-> forall k v, m !! k = Some v -> v = []))).
  - split; [lia|]. split; [|reflexivity].
    intros _ k v Hk. rewrite lookup_empty in Hk. discriminate.
  - intros i x m' r Hi [Hr Hiff]. split; [lia|]. split.
    + intros Hsum k v Hk. assert (r = 0 /\ length x = 0%nat) as [Hr0 Hx] by lia.
      destruct (decide (i = k)) as [->|Hne].
      * rewrite lookup_insert_eq in Hk. injection Hk as <-.
        now destruct x.
      * rewrite lookup_insert_ne in Hk by exact Hne.
        apply (proj1 Hiff Hr0 k v Hk).
    + intros Hall. assert (x = []) as -> by (apply (Hall i); apply lookup_insert_eq).
      assert (r = 0); [|simpl; lia].
      apply Hiff. intros k v Hk. apply (Hall k).
      rewrite lookup_insert_ne; [exact Hk|]. intros ->. congruence.
Qed.

Lemma total_pdfs_discovered wd start end_ fs :
  total_pdfs (scrape_all_pdfs wd (map dataset_url (pending start end_ fs))
                              (pending start end_ fs)) = 0
  <-> discovered wd start end_ fs = [].
Proof.
  rewrite total_pdfs_zero, discovered_concat. split.
  - intros Hall. induction (pending start end_ fs) as [|n nums IH]; [reflexivity|].
    simpl. rewrite (Hall n (scraped_urls wd n)).
    + simpl. apply IH. intros k v Hk. apply (Hall k).
      rewrite scrape_all_pdfs_lookup in *.
      destruct (decide (k ∈ nums)) as [Hin|Hnin].
      * rewrite bool_decide_eq_true_2 in Hk by exact Hin.
        rewrite bool_decide_eq_true_2 by (now right). exact Hk.
      * rewrite bool_decide_eq_false_2 in Hk by exact Hnin. discriminate.
    + rewrite scrape_all_pdfs_lookup, bool_decide_eq_true_2 by left. reflexivity.
  - intros Hnil k v Hk. rewrite scrape_all_pdfs_lookup in Hk.
    destruct (decide (k ∈ pending start end_ fs)) as [Hin|Hnin].
    + rewrite bool_decide_eq_true_2 in Hk by exact Hin. injection Hk as <-.
      induction (pending start end_ fs) as [|n nums IH]; [inversion Hin|].
      simpl in Hnil. apply app_eq_nil in Hnil as [Hn Hrest].
      apply elem_of_cons in Hin as [->|Hin]; auto.
    + rewrite bool_decide_eq_false_2 in Hk by exact Hnin. discriminate.
Qed.

Lemma filter_nil_iff {A : Type} (keep : A -> bool) (l : list A) :
  List.filter keep l = [] <-> forall x, In x l -> keep x = false.
Proof.
  induction l as [|a l IH]; simpl.
  - split; [intros _ x [] | reflexivity].
  - destruct (keep a) eqn:E; split.
    + discriminate.
    + intros Hall. rewrite (Hall a) in E by now left. discriminate.
    + intros Hnil x [<-|Hx]; [exact E | now apply IH].
    + intros Hall. apply IH. intros x Hx. apply Hall. now right.
Qed.

Lemma pending_nil start end_ fs :
  pending start end_ fs = []
  <-> forall i, start <= i <= end_ -> i ∈ load_downloaded_datasets fs.
Proof.
  unfold pending. rewrite filter_nil_iff. split.
  - intros Hall i Hi.
    destruct (decide (i ∈ load_downloaded_datasets fs)) as [Hin|Hnin]; [exact Hin|].
    assert (Hseq : In i (seqZ start (end_ + 1 - start)))
      by (apply list_elem_of_In, elem_of_seqZ; lia).
    apply Hall in Hseq. now rewrite bool_decide_eq_false_2 in Hseq.
  - intros Hall i Hi. apply list_elem_of_In, elem_of_seqZ in Hi.
    rewrite bool_decide_eq_true_2; [reflexivity|]. apply Hall. lia.
Qed.

Lemma elem_of_pending start end_ fs i :
  i ∈ pending start end_ fs
  <-> start <= i <= end_ /\ i ∉ load_downloaded_datasets fs.
Proof.
  unfold pending. rewrite list_elem_of_In, filter_In.
  rewrite <- list_elem_of_In, elem_of_seqZ, negb_true_iff. split.
  - intros [Hr Hn]. split; [lia|]. now apply bool_decide_eq_false in Hn.
  - intros [Hr Hn]. split; [lia|]. now apply bool_decide_eq_false.
Qed.


Lemma marks_requests urls : marks (map EvHttpGet urls) = 0%nat.
Proof. induction urls; [reflexivity | exact IHurls]. Qed.

Lemma register_all_trace nums fs tr :
  snd (register_all nums fs tr) = tr ++ map EvMarkCompleted nums.
Proof.
  revert fs tr. induction nums as [|n nums IH]; intros fs tr; simpl.
  - now rewrite app_nil_r.
  - now rewrite IH, <- app_assoc.
Qed.


Lemma download_pdf_marks w dir url st :
  marks (Superdownloader.trace (snd (Superdownloader.download_pdf w dir url st)))
  = marks (Superdownloader.trace st).
Proof.
  unfold Superdownloader.download_pdf, Superdownloader.age_verification,
    Superdownloader.navigate, Superdownloader.log.
  repeat case_match; simpl; rewrite ?marks_app; cbn; lia.
Qed.

Lemma download_each_marks w dir urls n st :
  marks (Superdownloader.trace (snd (Superdownloader.download_each w dir urls n st)))
  = marks (Superdownloader.trace st).
Proof.
  revert n st. induction urls as [|url rest IH]; intros n st; simpl.
  - reflexivity.
  - pose proof (download_pdf_marks w dir url st) as Hm.
    destruct (Superdownloader.download_pdf w dir url st) as [ok st1].
    simpl in Hm. now rewrite IH.
Qed.

(** An event that the front part of a trace does not hold can only be
    found behind it. *)
Lemma split_behind {A : Type} (front rest before after : list A) (x : A) :
  front ++ rest = before ++ x :: after -> x ∉ front ->
  exists middle, before = front ++ middle.
Proof.
  revert before. induction front as [|e front IH]; intros before Heq Hx.
  - exists before. reflexivity.
  - destruct before as [|b before]; simpl in Heq.
    + injection Heq as -> _. exfalso. apply Hx. left.
    + injection Heq as -> Heq. destruct (IH before Heq) as (middle & ->).
      * intros Hin. apply Hx. now right.
      * exists middle. reflexivity.
Qed.

(** The directory [./pdfs] can be made unless the name is taken by a
    regular file: the directory above it is the working directory. *)
Lemma init_saved urls fs :
  Superdownloader.init pdf_dir (save_urls_to_file urls urls_file fs)
  = if bool_decide (is_Some (files fs !! pdf_dir)) then Raise FileExistsError
    else Return (Superdownloader.ready pdf_dir
                   (save_urls_to_file urls urls_file fs)).
Proof.
  unfold Superdownloader.init, mkdir_exist_ok.
  assert (Hfiles : files (save_urls_to_file urls urls_file fs) !! pdf_dir
                   = files fs !! pdf_dir).
  { unfold save_urls_to_file, write_file. cbn [files mkdir].
    apply lookup_insert_ne. discriminate. }
  rewrite Hfiles. destruct (bool_decide (is_Some (files fs !! pdf_dir)));
    [reflexivity|].
  destruct (dir_exists _ pdf_dir); [reflexivity|].
  assert (Hup : dir_exists (save_urls_to_file urls urls_file fs)
                           (parent pdf_dir) = true).
  { unfold dir_exists. change (parent pdf_dir) with ".".
    change (String.eqb "." ".") with true. now rewrite orb_true_r. }
  now rewrite Hup.
Qed.

(** The download of the URL file that [main] has just written. *)
Lemma download_saved_urls (w : Superdownloader.web) urls fs :
  Superdownloader.download_pdfs w (inl urls_file) pdf_dir
                                (save_urls_to_file urls urls_file fs)
  = if bool_decide (is_Some (files fs !! pdf_dir)) then
      (Raise FileExistsError, save_urls_to_file urls urls_file fs, [])
    else if Superdownloader.chrome_starts w then
      let run :=
        Superdownloader.download_each w pdf_dir
          (Superdownloader.url_lines (url_text urls)) 0
          (Superdownloader.log EvChromeStart
             (Superdownloader.ready pdf_dir (save_urls_to_file urls urls_file fs))) in
      (Return (fst run), Superdownloader.fs (snd run),
       Superdownloader.trace (snd run) ++ [EvChromeQuit])
    else
      (Raise WebDriverException,
       mkdir pdf_dir (save_urls_to_file urls urls_file fs), []).
Proof.
  unfold Superdownloader.download_pdfs.
  assert (Hex : path_exists (save_urls_to_file urls urls_file fs) urls_file = true).
  { unfold path_exists, save_urls_to_file, write_file. simpl.
    rewrite lookup_insert_eq. rewrite bool_decide_eq_true_2 by eauto. reflexivity. }
  cbn [List.find]. rewrite Hex. cbn [negb]. rewrite init_saved.
  destruct (bool_decide (is_Some (files fs !! pdf_dir))); [reflexivity|].
  destruct (Superdownloader.chrome_starts w); [|reflexivity].
  cbn [length Nat.eqb hd]. unfold Superdownloader.download_from_file.
  assert (Hread : Superdownloader.read_urls urls_file
                    (Superdownloader.fs
                       (Superdownloader.log EvChromeStart
                          (Superdownloader.ready pdf_dir
                             (save_urls_to_file urls urls_file fs))))
                  = Return (Superdownloader.url_lines (url_text urls))).
  { unfold Superdownloader.read_urls, save_urls_to_file, write_file. simpl.
    now rewrite lookup_insert_eq. }
  rewrite Hread.
  destruct (Superdownloader.download_each _ _ _ _ _) as [n st]. reflexivity.
Qed.

(** The run of [main] on two integers in order, in its four outcomes. *)
Lemma main_cases wd prog a1 a2 start end_ fs :
  py_int a1 = Some start -> py_int a2 = Some end_ -> start <= end_ ->
  let r := main wd [prog; a1; a2] fs in
  (pending start end_ fs = [] /\ r = (0, fs, []))
  \/ (pending start end_ fs <> [] /\ discovered wd start end_ fs = []
      /\ r = (0, fs, map EvHttpGet (map dataset_url (pending start end_ fs))))
  \/ (pending start end_ fs <> [] /\ discovered wd start end_ fs <> []
      /\ (is_Some (files fs !! pdf_dir)
          \/ Superdownloader.chrome_starts (browser wd) = false)
      /\ exit_code r = 1
      /\ final_trace r = map EvHttpGet (map dataset_url (pending start end_ fs)))
  \/ (pending start end_ fs <> [] /\ discovered wd start end_ fs <> []
      /\ (files fs !! pdf_dir = None
          /\ Superdownloader.chrome_starts (browser wd) = true)
      /\ exists run,
          run = Superdownloader.download_each (browser wd) pdf_dir
                  (Superdownloader.url_lines (url_text (discovered wd start end_ fs))) 0
                  (Superdownloader.log EvChromeStart
                     (Superdownloader.ready pdf_dir
                        (save_urls_to_file (discovered wd start end_ fs) urls_file fs)))
          /\ exit_code r = (if 0 <? fst run then 0 else 1)
          /\ final_trace r
             = (map EvHttpGet (map dataset_url (pending start end_ fs))
                  ++ Superdownloader.trace (snd run) ++ [EvChromeQuit])
                 ++ map EvMarkCompleted (pending start end_ fs)).
Proof.
  intros Hs He Hle r. subst r. unfold main. rewrite Hs, He.
  rewrite (proj2 (Z.ltb_ge end_ start)) by lia.
  pose proof (total_pdfs_discovered wd start end_ fs) as Htotal.
  unfold discovered. rewrite generate_dataset_urls_pending.
  unfold discovered in Htotal. rewrite generate_dataset_urls_pending in Htotal.
  destruct (pending start end_ fs) as [|n nums] eqn:Hp.
  - left. split; reflexivity.
  - right. cbn [map].
    change (dataset_url n :: map dataset_url nums)
      with (map dataset_url (n :: nums)) in *.
    destruct (total_pdfs _ =? 0) eqn:HT.
    + left. split; [discriminate|]. split; [|reflexivity].
      apply Htotal. now apply Z.eqb_eq.
    + right.
      assert (Hne : all_pdf_urls (scrape_all_pdfs wd (map dataset_url (n :: nums))
                                                  (n :: nums)) (n :: nums) <> []).
      { intros Hnil. apply Htotal in Hnil. apply Z.eqb_neq in HT. contradiction. }
      rewrite download_saved_urls.
      destruct (bool_decide (is_Some (files fs !! pdf_dir))) eqn:Hfile.
      { left. apply bool_decide_eq_true in Hfile.
        split; [discriminate|]. split; [exact Hne|]. split; [now left|].
        split; [reflexivity|]. unfold final_trace. simpl. now rewrite app_nil_r. }
      apply bool_decide_eq_false in Hfile.
      assert (Hnone : files fs !! pdf_dir = None).
      { destruct (files fs !! pdf_dir) eqn:E; [|reflexivity].
        exfalso. apply Hfile. eauto. }
      destruct (Superdownloader.chrome_starts (browser wd)).
      * right. split; [discriminate|]. split; [exact Hne|].
        split; [now split|].
        eexists. split; [reflexivity|].
        cbv beta iota zeta.
        match goal with
        | |- context [register_all ?a ?b ?c] =>
            pose proof (register_all_trace a b c) as Htr;
            destruct (register_all a b c) as [fs2 tr2]
        end.
        simpl in Htr. subst tr2. split; reflexivity.
      * left. split; [discriminate|]. split; [exact Hne|]. split; [now right|].
        split; [reflexivity|]. unfold final_trace. simpl. now rewrite app_nil_r.
Qed.




(** C7.  In a run of [main] on two integers, every registration of a
    data set comes after the download of every URL scraped for the run
    has been attempted: whatever precedes an [EvMarkCompleted] in the
    trace holds a navigation to each URL that [scrape_pdf_urls] returns
    for the page of a data set of the range that was not registered
    before (the URLs being well-formed lines).  And when the download
    raises, because the browser does not start or because the output
    directory cannot be made, no data set is registered. *)
Theorem registered_only_after_all_attempts (wd : world) (prog a1 a2 : string)
        (start end_ : Z) (fs : filesys) :
  py_int a1 = Some start -> py_int a2 = Some end_ ->
  (forall i u,
      start <= i <= end_ -> i ∉ load_downloaded_datasets fs ->
      u ∈ Superscraper.scrape_pdf_urls (dataset_url i) (scraped wd (dataset_url i)) ->
      url_line u = true) ->
  (forall before n after,
      final_trace (main wd [prog; a1; a2] fs) = before ++ EvMarkCompleted n :: after ->
      forall i u,
        start <= i <= end_ -> i ∉ load_downloaded_datasets fs ->
        u ∈ Superscraper.scrape_pdf_urls (dataset_url i)
                                         (scraped wd (dataset_url i)) ->
        EvDriverGet u ∈ before)
  /\ (Superdownloader.chrome_starts (browser wd) = false
      \/ is_Some (files fs !! pdf_dir) ->
      forall n, EvMarkCompleted n ∉ final_trace (main wd [prog; a1; a2] fs)).
Proof.
  intros Hs He Hlines.
  assert (Hfound : forall i u,
             start <= i <= end_ -> i ∉ load_downloaded_datasets fs ->
             u ∈ Superscraper.scrape_pdf_urls (dataset_url i)
                                              (scraped wd (dataset_url i)) ->
             u ∈ discovered wd start end_ fs).
  { intros i u Hi Hnew Hu. rewrite discovered_concat.
    apply list_elem_of_In, in_concat. exists (scraped_urls wd i).
    split; [|now apply list_elem_of_In].
    apply in_map, list_elem_of_In, elem_of_pending. now split. }
  assert (Hwf : Forall (fun u => url_line u = true) (discovered wd start end_ fs)).
  { apply Forall_forall. intros u Hu. rewrite discovered_concat in Hu.
    apply list_elem_of_In, in_concat in Hu as (us & Hus & Hu).
    apply in_map_iff in Hus as (i & <- & Hi).
    apply list_elem_of_In, elem_of_pending in Hi as [Hi Hnew].
    apply (Hlines i u Hi Hnew). now apply list_elem_of_In. }
  destruct (Z_le_gt_dec start end_) as [Hle|Hgt].
  2:{ assert (Hmain : main wd [prog; a1; a2] fs = (1, fs, [])).
      { unfold main. rewrite Hs, He.
        rewrite (proj2 (Z.ltb_lt end_ start)) by lia. reflexivity. }
      rewrite Hmain. split.
      - intros before n after Heq. destruct before; discriminate.
      - intros _ n. apply not_elem_of_nil. }
  destruct (main_cases wd prog a1 a2 start end_ fs Hs He Hle)
    as [[Hp ->]|[(Hp & Hd & ->)|[(Hp & Hd & Hc & Hexit & Htr)
                                |(Hp & Hd & [Hfree Hc] & run & Hrun & Hexit & Htr)]]].
  - split.
    + intros before n after Heq. destruct before; discriminate.
    + intros _ n. apply not_elem_of_nil.
  - split.
    + intros before n after Heq i u Hi Hnew Hu.
      pose proof (Hfound i u Hi Hnew Hu) as Hin. rewrite Hd in Hin. inversion Hin.
    + intros _ n. apply marks_none, marks_requests.
  - rewrite Htr. split.
    + intros before n after Heq.
      assert (Hin : EvMarkCompleted n
                      ∈ map EvHttpGet (map dataset_url (pending start end_ fs))).
      { rewrite Heq. apply elem_of_app. right. left. }
      destruct (marks_none n _ (marks_requests (map dataset_url (pending start end_ fs))) Hin).
    + intros _ n. apply marks_none, marks_requests.
  - rewrite Htr. split.
    2:{ intros [Hno|[content Hfile]]; congruence. }
    intros before n after Heq i u Hi Hnew Hu.
    rewrite (url_lines_url_text _ Hwf) in Hrun.
    assert (Hfront : marks (map EvHttpGet (map dataset_url (pending start end_ fs))
                              ++ Superdownloader.trace (snd run) ++ [EvChromeQuit])
                     = 0%nat).
    { rewrite !marks_app, marks_requests, Hrun, download_each_marks. reflexivity. }
    destruct (split_behind _ _ _ _ _ Heq (marks_none n _ Hfront)) as (middle & ->).
    apply elem_of_app. left. apply elem_of_app. right. apply elem_of_app. left.
    rewrite Hrun. apply download_each_attempts_all. now apply (Hfound i).
Qed.

End Orchestrator.


Lemma registered_only_after_all_attempts_witness :
  (forall before n after,
      Supermain.final_trace
        (@Supermain.main Plain.plain_lib Sample.fruitful_world
           ["supermain.py"; "1"; "1"] empty_fs)
      = before ++ EvMarkCompleted n :: after ->
      forall i u,
        1 <= i <= 1 -> i ∉ Supermain.load_downloaded_datasets empty_fs ->
        u ∈ @Superscraper.scrape_pdf_urls Plain.plain_lib
              (Supermain.dataset_url i)
              (Supermain.scraped Sample.fruitful_world (Supermain.dataset_url i)) ->
        EvDriverGet u ∈ before)
  /\ (forall n,
         EvMarkCompleted n
           ∉ Supermain.final_trace
               (@Supermain.main Plain.plain_lib Sample.stalled_world
                  ["supermain.py"; "1"; "1"] empty_fs))
  /\ (forall n,
         EvMarkCompleted n
           ∉ Supermain.final_trace
               (@Supermain.main Plain.plain_lib Sample.fruitful_world
                  ["supermain.py"; "1"; "1"]
                  (write_file "./pdfs" "not a directory" empty_fs))).
Proof.
  assert (Hlines : forall (fs : filesys) i u,
             1 <= i <= 1 -> i ∉ Supermain.load_downloaded_datasets fs ->
             u ∈ @Superscraper.scrape_pdf_urls Plain.plain_lib
                   (Supermain.dataset_url i) (Some [Sample.doc; Sample.doc2]) ->
             url_line u = true).
  { intros fs i u _ _ Hu. change (u ∈ [Sample.doc; Sample.doc2]) in Hu.
    apply elem_of_cons in Hu as [->|Hu]; [reflexivity|].
    apply elem_of_cons in Hu as [->|Hu]; [reflexivity | inversion Hu]. }
  split; [|split].
  - apply (proj1 (@registered_only_after_all_attempts Plain.plain_lib
                    Sample.fruitful_world "supermain.py" "1" "1" 1 1 empty_fs
                    eq_refl eq_refl (Hlines empty_fs))).
  - apply (proj2 (@registered_only_after_all_attempts Plain.plain_lib
                    Sample.stalled_world "supermain.py" "1" "1" 1 1 empty_fs
                    eq_refl eq_refl (Hlines empty_fs))).
    left. reflexivity.
  - apply (proj2 (@registered_only_after_all_attempts Plain.plain_lib
                    Sample.fruitful_world "supermain.py" "1" "1" 1 1
                    (write_file "./pdfs" "not a directory" empty_fs)
                    eq_refl eq_refl
                    (Hlines (write_file "./pdfs" "not a directory" empty_fs)))).
    right. exists "not a directory". reflexivity.
Defined.

(** A whole run on one data set: scrape, browser start, the
    two downloads behind one gate click, browser quit, registration. *)
Example fruitful_run :
  @Supermain.main Plain.plain_lib Sample.fruitful_world
    ["supermain.py"; "1"; "1"] empty_fs
  = (0,
     Supermain.final_fs
       (@Supermain.main Plain.plain_lib Sample.fruitful_world
          ["supermain.py"; "1"; "1"] empty_fs),
     [EvHttpGet "https://www.justice.gov/epstein/doj-disclosures/data-set-1-files";
      EvChromeStart;
      EvDriverGet Sample.doc; EvGateWait; EvGateClick; EvDriverGet Sample.doc;
      EvHttpGet Sample.doc; EvWrite "./pdfs/EFTA00000001.pdf";
      EvDriverGet Sample.doc2; EvGateWait;
      EvHttpGet Sample.doc2; EvWrite "./pdfs/EFTA00000002.pdf";
      EvChromeQuit;
      EvMarkCompleted 1]).
Proof. vm_compute. reflexivity. Qed.

(** * Further properties of the code *)

(** ** File names *)

Section FileNames.








End FileNames.

(** ** The plain downloader *)

Section PlainDownloader.
Context `{PyLib}.
Variable net : Downloader.network.
Variable output_dir : string.
Variable dir_size : Z.

Lemma count_classifies result st s :
  Downloader.classified (Downloader.count dir_size result st s) = Downloader.classified s + 1
  /\ Downloader.pdfs_found (Downloader.count dir_size result st s)
     = Downloader.pdfs_found s
  /\ Downloader.urls_processed (Downloader.count dir_size result st s)
     = Downloader.urls_processed s.
Proof.
  unfold Downloader.count, Downloader.classified.
  repeat case_match; simpl; repeat split; lia.
Qed.

Lemma download_links_classifies links st s :
  Downloader.classified (snd (Downloader.download_links net output_dir dir_size links st s))
  = Downloader.classified s + Z.of_nat (length links)
  /\ Downloader.pdfs_found
       (snd (Downloader.download_links net output_dir dir_size links st s))
     = Downloader.pdfs_found s
  /\ Downloader.urls_processed
       (snd (Downloader.download_links net output_dir dir_size links st s))
     = Downloader.urls_processed s.
Proof.
  revert st s. induction links as [|url rest IH]; intros st s.
  - simpl. repeat split; lia.
  - cbn [Downloader.download_links].
    destruct (Downloader.download_pdf net output_dir url st) as [result st1].
    destruct (IH st1 (Downloader.count dir_size result st1 s)) as (Hc & Hf & Hp).
    destruct (count_classifies result st1 s) as (Hc1 & Hf1 & Hp1).
    rewrite Hc, Hf, Hp, Hc1, Hf1, Hp1. cbn [length].
    repeat split; lia.
Qed.

Lemma download_pages_classifies url_list st s :
  let s' := snd (Downloader.download_pages net output_dir dir_size url_list st s) in
  Downloader.classified s' - Downloader.pdfs_found s'
  = Downloader.classified s - Downloader.pdfs_found s
  /\ Downloader.urls_processed s'
     = Downloader.urls_processed s + Z.of_nat (length url_list).
Proof.
  revert st s. induction url_list as [|url rest IH]; intros st s.
  - simpl. split; lia.
  - cbn [Downloader.download_pages]. cbv zeta.
    match goal with
    | |- context [Downloader.download_links net output_dir dir_size ?l ?a ?b] =>
        pose proof (download_links_classifies l a b) as (Hc & Hf & Hp);
        destruct (Downloader.download_links net output_dir dir_size l a b)
          as [st1 s1]
    end.
    simpl in Hc, Hf, Hp. unfold Downloader.classified in Hc. simpl in Hc.
    specialize (IH st1 s1). cbv zeta in IH. destruct IH as [IHc IHp].
    rewrite IHc, IHp. unfold Downloader.classified. cbn [length]. split; lia.
Qed.

(** X2.  The statistics of [download_from_urls] add up: every PDF link
    found is counted under exactly one of downloaded, failed and
    skipped, and every listing URL is counted as processed. *)
Theorem statistics_add_up (url_list : list string) (st : Downloader.state) :
  let s := snd (Downloader.download_from_urls net output_dir dir_size url_list st) in
  Downloader.pdfs_downloaded s + Downloader.pdfs_failed s
  + Downloader.pdfs_skipped s = Downloader.pdfs_found s
  /\ Downloader.urls_processed s = Z.of_nat (length url_list).
Proof.
  unfold Downloader.download_from_urls.
  pose proof (download_pages_classifies url_list st Downloader.no_stats) as [Hc Hp].
  cbv zeta in *. unfold Downloader.classified in Hc. simpl in Hc, Hp. split; lia.
Qed.

(** X3.  [download_pdf] of the plain downloader leaves no partial
    file: when it returns [None] nothing exists at the destination
    path afterwards, and when it returns a path, that is the
    destination path and it exists. *)
Theorem no_partial_file_is_left (url : string) (st : Downloader.state) :
  match fst (Downloader.download_pdf net output_dir url st) with
  | None =>
      path_exists (Downloader.fs (snd (Downloader.download_pdf net output_dir url st)))
                  (Downloader.destination output_dir url) = false
  | Some p =>
      p = Downloader.destination output_dir url
      /\ path_exists (Downloader.fs (snd (Downloader.download_pdf net output_dir url st)))
                     p = true
  end.
Proof.
  unfold Downloader.download_pdf. fold (Downloader.destination output_dir url).
  destruct (path_exists (Downloader.fs st) (Downloader.destination output_dir url))
    eqn:Hex; [now split|].
  assert (Hdir : bool_decide (Downloader.destination output_dir url
                                ∈ dirs (Downloader.fs st)) = false).
  { unfold path_exists in Hex. now apply orb_false_iff in Hex as [_ Hd]. }
  destruct (Downloader.fetch net _ url); simpl.
  - exact Hex.
  - assert (Hwritten : path_exists
                         (write_file (Downloader.destination output_dir url) partial
                                     (Downloader.fs st))
                         (Downloader.destination output_dir url) = true).
    { unfold path_exists, write_file. simpl. rewrite lookup_insert_eq.
      rewrite bool_decide_eq_true_2 by eauto. reflexivity. }
    rewrite Hwritten. unfold path_exists, unlink, write_file. simpl.
    rewrite lookup_delete_eq, Hdir. rewrite bool_decide_eq_false_2; [reflexivity|].
    intros [x Hx]. discriminate.
  - split; [reflexivity|]. unfold path_exists, write_file. simpl.
    rewrite lookup_insert_eq. rewrite bool_decide_eq_true_2 by eauto. reflexivity.
Qed.

End PlainDownloader.

(** ** Page traversal in general *)

Section Bounds.
Import Supersearcher.

Lemma skip_pages_within start e n pages tr :
  n <= start -> start <= e ->
  exists new,
    snd (skip_pages start n n pages tr) = tr ++ new
    /\ forallb (within_end e) new = true
    /\ forallb (from_start start) new = true
    /\ forall r, fst (skip_pages start n n pages tr) = Some r ->
                 page_num r = position r /\ position r <= start.
Proof.
  intros Hn He. revert n tr Hn.
  induction pages as [|cur rest IH]; intros n tr Hn; cbn [skip_pages].
  - exists []. rewrite app_nil_r. split; [reflexivity|]. split; [reflexivity|].
    split; [reflexivity|]. intros r Hr. injection Hr as <-. simpl. lia.
  - destruct ((n <? start) && has_next_page cur) eqn:Hgo.
    + apply andb_true_iff in Hgo as [Hlt _]. apply Z.ltb_lt in Hlt.
      destruct (click_next_page cur); cbn [negb].
      * destruct (IH (n + 1) (tr ++ [EvClickNext n])) as (new & Hnew & Hw & Hf & Hr);
          [lia|].
        exists (EvClickNext n :: new). rewrite Hnew, <- app_assoc.
        split; [reflexivity|]. split; [|split; [exact Hf | exact Hr]].
        cbn [forallb within_end]. rewrite Hw.
        rewrite (proj2 (Z.ltb_lt n e)) by lia. reflexivity.
      * exists [EvClickNext n]. split; [reflexivity|]. split.
        -- cbn. rewrite (proj2 (Z.ltb_lt n e)) by lia. reflexivity.
        -- split; [reflexivity | discriminate].
    + exists []. rewrite app_nil_r. split; [reflexivity|]. split; [reflexivity|].
      split; [reflexivity|]. intros r Hr. injection Hr as <-. simpl. lia.
Qed.

Lemma following_pages_within e b n pages urls tr :
  n <= e -> b <= n ->
  exists new,
    snd (following_pages (Some e) n n pages urls tr) = tr ++ new
    /\ forallb (within_end e) new = true
    /\ forallb (from_start b) new = true.
Proof.
  intros He Hb. revert n urls tr He Hb.
  induction pages as [|cur rest IH]; intros n urls tr He Hb; cbn [following_pages].
  - exists []. now rewrite app_nil_r.
  - destruct (has_next_page cur); [|exists []; now rewrite app_nil_r].
    cbn [end_reached]. destruct (e <=? n) eqn:Hend;
      [exists []; now rewrite app_nil_r|].
    apply Z.leb_gt in Hend.
    destruct (click_next_page cur); cbn [negb].
    + destruct (IH (n + 1) (urls ++ extract_pdf_urls (current rest))
                   ((tr ++ [EvClickNext n]) ++ [EvExtract (n + 1)]))
        as (new & Hnew & Hw & Hf); [lia | lia |].
      exists (EvClickNext n :: EvExtract (n + 1) :: new).
      rewrite Hnew, <- !app_assoc. split; [reflexivity|]. split.
      * cbn [forallb within_end]. rewrite Hw.
        rewrite (proj2 (Z.ltb_lt n e)), (proj2 (Z.leb_le (n + 1) e)) by lia.
        reflexivity.
      * cbn [forallb from_start]. rewrite Hf.
        rewrite (proj2 (Z.leb_le b (n + 1))) by lia. reflexivity.
    + exists [EvClickNext n]. split; [reflexivity|]. split; [|reflexivity].
      cbn. rewrite (proj2 (Z.ltb_lt n e)) by lia. reflexivity.
Qed.

Lemma following_pages_from end_page b n pages urls tr :
  b <= n ->
  exists new,
    snd (following_pages end_page n n pages urls tr) = tr ++ new
    /\ forallb (from_start b) new = true.
Proof.
  intros Hb. revert n urls tr Hb.
  induction pages as [|cur rest IH]; intros n urls tr Hb; cbn [following_pages].
  - exists []. now rewrite app_nil_r.
  - destruct (has_next_page cur); [|exists []; now rewrite app_nil_r].
    destruct (end_reached end_page n); [exists []; now rewrite app_nil_r|].
    destruct (click_next_page cur); cbn [negb].
    + destruct (IH (n + 1) (urls ++ extract_pdf_urls (current rest))
                   ((tr ++ [EvClickNext n]) ++ [EvExtract (n + 1)]))
        as (new & Hnew & Hf); [lia|].
      exists (EvClickNext n :: EvExtract (n + 1) :: new).
      rewrite Hnew, <- !app_assoc. split; [reflexivity|].
      cbn [forallb from_start]. rewrite Hf.
      rewrite (proj2 (Z.leb_le b (n + 1))) by lia. reflexivity.
    + exists [EvClickNext n]. split; reflexivity.
Qed.

Lemma skip_pages_reaches start k :
  forall n pages tr,
    start = n + Z.of_nat k -> (k <= length pages)%nat ->
    Forall (fun p => click_next_page p = true) (take k pages) ->
    fst (skip_pages start n n pages tr)
    = Some {| page_num := start; position := start; ahead := drop k pages |}.
Proof.
  induction k as [|k IH]; intros n pages tr Hstart Hlen Hclick.
  - rewrite skip_pages_done by lia. simpl. f_equal. f_equal; lia.
  - destruct pages as [|cur rest]; [simpl in Hlen; lia|].
    cbn [take] in Hclick. apply Forall_cons in Hclick as [Hcur Hrest].
    rewrite skip_pages_step by (try lia; assumption).
    cbn [drop]. apply IH; [lia | simpl in Hlen; lia | exact Hrest].
Qed.

(** X5.  With a page range [start_page .. end_page] that is in order
    and starts at 1 or later, discovery never goes beyond the end
    page, whatever the listing: every extraction is of a page up to
    [end_page] and every click on next is made on a page before
    [end_page]. *)
Theorem never_beyond_end_page (s : site) (query : string)
        (start_page end_page : Z) :
  1 <= start_page -> start_page <= end_page ->
  forallb (within_end end_page)
          (snd (search_and_extract s query start_page (Some end_page))) = true.
Proof.
  intros H1 Hle.
  unfold search_and_extract, perform_search, handle_age_verification.
  destruct (gate_present s), (search_form s); cbn [snd app]; try reflexivity.
  all: match goal with
       | |- context [skip_pages ?sp 1 1 ?l ?tr] =>
           destruct (skip_pages_within sp end_page 1 l tr H1 Hle)
             as (skipped & Hskip & Hw & _ & Hr);
           destruct (skip_pages sp 1 1 l tr) as [[r|] tr'];
           simpl in Hskip; subst tr'
       end.
  all: try (cbn [snd forallb within_end]; exact Hw).
  all: destruct (Hr r eq_refl) as [Hnum Hpos]; rewrite Hnum.
  all: match goal with
       | |- context [following_pages ?e ?n ?n ?l ?u ?tr] =>
           destruct (following_pages_within end_page n n l u tr
                       ltac:(lia) ltac:(lia))
             as (followed & Hfollow & Hfw & _);
           destruct (following_pages e n n l u tr) as [urls tr'];
           simpl in Hfollow; subst tr'
       end.
  all: cbv beta iota zeta; cbn [snd forallb within_end andb];
    rewrite !forallb_app; cbn [forallb within_end andb];
    rewrite Hw, Hfw, (proj2 (Z.leb_le (position r) end_page)) by lia;
    reflexivity.
Qed.

(** X6.  When the listing has a page for every number before
    [start_page] and the next control of each of them works, discovery
    extracts no page before [start_page], whatever [end_page] is. *)
Theorem start_page_is_respected_when_reached (s : site) (query : string)
        (start_page : Z) (end_page : option Z) :
  1 <= start_page ->
  (Z.to_nat (start_page - 1) <= length (listing s))%nat ->
  Forall (fun p => click_next_page p = true)
         (take (Z.to_nat (start_page - 1)) (listing s)) ->
  forallb (from_start start_page)
          (snd (search_and_extract s query start_page end_page)) = true.
Proof.
  intros H1 Hlen Hclick.
  unfold search_and_extract, perform_search, handle_age_verification.
  destruct (gate_present s), (search_form s); cbn [snd app]; try reflexivity.
  all: match goal with
       | |- context [skip_pages ?sp 1 1 ?l ?tr] =>
           destruct (skip_pages_within sp sp 1 l tr H1 ltac:(lia))
             as (skipped & Hskip & _ & Hf & _);
           pose proof (skip_pages_reaches sp (Z.to_nat (sp - 1)) 1 l tr
                         ltac:(lia) Hlen Hclick) as Hreach;
           destruct (skip_pages sp 1 1 l tr) as [[r|] tr'];
           simpl in Hskip, Hreach; subst tr'; try discriminate
       end.
  all: injection Hreach as ->; cbn [page_num position ahead].
  all: match goal with
       | |- context [following_pages ?e ?n ?n ?l ?u ?tr] =>
           destruct (following_pages_from e n n l u tr ltac:(lia))
             as (followed & Hfollow & Hff);
           destruct (following_pages e n n l u tr) as [urls tr'];
           simpl in Hfollow; subst tr'
       end.
  all: cbv beta iota zeta; cbn [snd forallb from_start andb];
    rewrite !forallb_app; cbn [forallb from_start andb];
    rewrite Hf, Hff, (proj2 (Z.leb_le start_page start_page)) by lia;
    reflexivity.
Qed.

End Bounds.

Lemma never_beyond_end_page_witness :
  forallb (Supersearcher.within_end 2)
          (snd (Supersearcher.search_and_extract
                  {| Supersearcher.gate_present := true;
                     Supersearcher.search_form := true;
                     Supersearcher.listing :=
                       [Sample.inner_page [Sample.doc];
                        Sample.inner_page [Sample.doc2];
                        Sample.last_page []] |}
                  "flight logs" 1 (Some 2))) = true.
Proof.
  apply (never_beyond_end_page
           {| Supersearcher.gate_present := true;
              Supersearcher.search_form := true;
              Supersearcher.listing :=
                [Sample.inner_page [Sample.doc];
                 Sample.inner_page [Sample.doc2];
                 Sample.last_page []] |}
           "flight logs" 1 2); lia.
Defined.

Lemma start_page_is_respected_when_reached_witness :
  forallb (Supersearcher.from_start 2)
          (snd (Supersearcher.search_and_extract
                  {| Supersearcher.gate_present := true;
                     Supersearcher.search_form := true;
                     Supersearcher.listing :=
                       [Sample.inner_page [Sample.doc];
                        Sample.inner_page [Sample.doc2];
                        Sample.last_page []] |}
                  "flight logs" 2 None)) = true.
Proof.
  apply (start_page_is_respected_when_reached
           {| Supersearcher.gate_present := true;
              Supersearcher.search_form := true;
              Supersearcher.listing :=
                [Sample.inner_page [Sample.doc];
                 Sample.inner_page [Sample.doc2];
                 Sample.last_page []] |}
           "flight logs" 2 None).
  - lia.
  - simpl. lia.
  - repeat constructor.
Defined.

(** ** Reading a URL file *)

Section UrlLines.

Lemma lstrip_head s :
  lstrip s = "" \/ exists c t, lstrip s = String c t /\ is_space c = false.
Proof.
  induction s as [|c s IH]; [now left|]. cbn [lstrip].
  destruct (is_space c) eqn:Hc; [exact IH|]. right. eauto.
Qed.

Lemma rstrip_cons c s :
  rstrip (String c s)
  = match rstrip s with
    | EmptyString => if is_space c then EmptyString else String c EmptyString
    | r => String c r
    end.
Proof. reflexivity. Qed.

Lemma rstrip_idempotent s : rstrip (rstrip s) = rstrip s.
Proof.
  induction s as [|c s IH]; [reflexivity|]. rewrite rstrip_cons.
  destruct (rstrip s) as [|d r] eqn:Hr.
  - destruct (is_space c) eqn:Hc; [reflexivity|].
    rewrite rstrip_cons. change (rstrip "") with "". now rewrite Hc.
  - rewrite rstrip_cons, IH. reflexivity.
Qed.

Lemma rstrip_keeps_head c s :
  is_space c = false -> exists r, rstrip (String c s) = String c r.
Proof.
  intros Hc. rewrite rstrip_cons, Hc. destruct (rstrip s); eauto.
Qed.

Lemma strip_idempotent s : strip (strip s) = strip s.
Proof.
  unfold strip. destruct (lstrip_head s) as [->|(c & t & -> & Hc)].
  - reflexivity.
  - destruct (rstrip_keeps_head c t Hc) as (r & Hr).
    rewrite Hr at 1. cbn [lstrip]. rewrite Hc, <- Hr. apply rstrip_idempotent.
Qed.

Lemma no_newline_cons c s :
  no_newline (String c s) = negb (is_newline c) && no_newline s.
Proof. reflexivity. Qed.

Lemma no_newline_lstrip s : no_newline s = true -> no_newline (lstrip s) = true.
Proof.
  induction s as [|c s IH]; [reflexivity|]. intros Hs. cbn [lstrip].
  destruct (is_space c); [|exact Hs].
  rewrite no_newline_cons in Hs. apply andb_true_iff in Hs as [_ Hs]. auto.
Qed.

Lemma no_newline_rstrip s : no_newline s = true -> no_newline (rstrip s) = true.
Proof.
  induction s as [|c s IH]; [reflexivity|]. intros Hs.
  rewrite no_newline_cons in Hs. apply andb_true_iff in Hs as [Hc Hs].
  rewrite rstrip_cons. specialize (IH Hs).
  destruct (rstrip s) as [|d r].
  - destruct (is_space c); [reflexivity|]. now rewrite no_newline_cons, Hc.
  - now rewrite no_newline_cons, Hc, IH.
Qed.

Lemma lines_no_newline s : Forall (fun l => no_newline l = true) (lines s).
Proof.
  induction s as [|c s IH]; [constructor|]. cbn [lines].
  destruct (is_newline c) eqn:Hc.
  - constructor; [reflexivity | exact IH].
  - destruct (lines s) as [|l ls].
    + constructor; [|constructor]. now rewrite no_newline_cons, Hc.
    + apply Forall_cons in IH as [Hl Hls]. constructor; [|exact Hls].
      now rewrite no_newline_cons, Hc, Hl.
Qed.

(** X7.  Whatever a URL file holds, every URL read from it is a
    well-formed line: not empty, not a comment, on one line and without
    white space around it.  So writing the URLs read from a file to a
    URL file and reading that again gives the same URLs. *)
Theorem urls_read_are_well_formed (text : string) :
  Forall (fun u => url_line u = true) (Superdownloader.url_lines text)
  /\ Superdownloader.url_lines (url_text (Superdownloader.url_lines text))
     = Superdownloader.url_lines text.
Proof.
  assert (Hwf : Forall (fun u => url_line u = true) (Superdownloader.url_lines text)).
  { rewrite url_lines_filter. apply Forall_forall. intros u Hu.
    apply list_elem_of_filter in Hu as [Hkeep Hu].
    apply list_elem_of_fmap in Hu as (l & -> & Hl).
    pose proof (lines_no_newline text) as Hnl.
    rewrite Forall_forall in Hnl. specialize (Hnl l Hl).
    unfold keep_line in Hkeep. apply andb_true_iff in Hkeep as [Hne Hhash].
    unfold url_line. rewrite strip_idempotent, String.eqb_refl, Hne, Hhash.
    unfold strip. now rewrite no_newline_rstrip by now apply no_newline_lstrip. }
  split; [exact Hwf | now apply url_lines_url_text].
Qed.

End UrlLines.

(** ** Batches of the browser downloader *)

Section Batches.
Context `{PyLib}.
Variable w : Superdownloader.web.
Variable output_dir : string.



Lemma download_each_bounds urls n st :
  n <= fst (Superdownloader.download_each w output_dir urls n st)
  <= n + Z.of_nat (length urls).
Proof.
  revert n st. induction urls as [|url rest IH]; intros n st; simpl.
  - lia.
  - destruct (Superdownloader.download_pdf w output_dir url st) as [ok st1].
    specialize (IH (if ok then n + 1 else n) st1). destruct ok; lia.
Qed.

Lemma collect_urls_app url_files fs0 acc :
  Superdownloader.collect_urls url_files fs0 acc
  = match Superdownloader.collect_urls url_files fs0 [] with
    | Return urls => Return (acc ++ urls)
    | Raise e => Raise e
    end.
Proof.
  revert acc. induction url_files as [|f rest IH]; intros acc; simpl.
  - now rewrite app_nil_r.
  - destruct (Superdownloader.read_urls f fs0) as [urls|e]; [|reflexivity].
    rewrite (IH (acc ++ urls)), (IH urls).
    destruct (Superdownloader.collect_urls rest fs0 []); [|reflexivity].
    now rewrite app_assoc.
Qed.

(** X8.  [download_from_multiple_files] reads every URL file before it
    downloads anything: when one of the files cannot be read it raises
    with the state untouched (no navigation, no request, no write);
    and on a single file it does what [download_from_file] does. *)
Theorem urls_are_collected_before_any_download :
  (forall (url_files : list string) (st : Superdownloader.state) (e : exn),
      fst (Superdownloader.download_from_multiple_files w output_dir url_files st)
      = Raise e ->
      snd (Superdownloader.download_from_multiple_files w output_dir url_files st)
      = st)
  /\ (forall (url_file : string) (st : Superdownloader.state),
         Superdownloader.download_from_multiple_files w output_dir [url_file] st
         = Superdownloader.download_from_file w output_dir url_file st).
Proof.
  split.
  - intros url_files st e. unfold Superdownloader.download_from_multiple_files.
    destruct (Superdownloader.collect_urls url_files (Superdownloader.fs st) [])
      as [urls|e']; [|reflexivity].
    destruct (Superdownloader.download_each w output_dir urls 0 st). discriminate.
  - intros url_file st.
    unfold Superdownloader.download_from_multiple_files,
      Superdownloader.download_from_file.
    cbn [Superdownloader.collect_urls].
    destruct (Superdownloader.read_urls url_file (Superdownloader.fs st));
      reflexivity.
Qed.

(** X9.  The number [download_from_file] returns lies between 0 and
    the number of URLs in the file, and it is the number of files the
    run has written. *)
Theorem success_count_is_bounded (url_file : string)
        (st st' : Superdownloader.state) (n : Z) :
  Superdownloader.download_from_file w output_dir url_file st = (Return n, st') ->
  0 <= n <= Z.of_nat (length (Superdownloader.url_lines
                                (read_text url_file (Superdownloader.fs st))))
  /\ Z.of_nat (writes (Superdownloader.trace st'))
     = Z.of_nat (writes (Superdownloader.trace st)) + n.
Proof.
  unfold Superdownloader.download_from_file, Superdownloader.read_urls, read_text.
  destruct (files (Superdownloader.fs st) !! url_file) as [text|];
    [|destruct (bool_decide _); discriminate].
  simpl. pose proof (download_each_bounds (Superdownloader.url_lines text) 0 st) as Hb.
  pose proof (download_each_writes w output_dir (Superdownloader.url_lines text) 0 st)
    as Hw.
  destruct (Superdownloader.download_each w output_dir _ 0 st) as [m st1].
  simpl in Hb, Hw. intros Heq. injection Heq as <- <-. split; lia.
Qed.

(** X10.  The URLs [download_from_multiple_files] works on are those of
    the first file, then those of the second, and so on, each file's
    URLs in the order of its lines. *)
Theorem files_are_read_in_order (url_files : list string) (fs0 : filesys)
        (urls : list string) :
  Superdownloader.collect_urls url_files fs0 [] = Return urls ->
  urls = concat (map (fun f => Superdownloader.url_lines (read_text f fs0))
                     url_files).
Proof.
  revert urls. induction url_files as [|f rest IH]; intros urls; simpl.
  - intros Heq. now injection Heq as <-.
  - unfold Superdownloader.read_urls at 1. unfold read_text at 1.
    destruct (files fs0 !! f) as [text|];
      [|destruct (bool_decide _); discriminate].
    simpl. rewrite collect_urls_app.
    destruct (Superdownloader.collect_urls rest fs0 []) as [more|e];
      [|discriminate].
    intros Heq. injection Heq as <-. now rewrite (IH more eq_refl).
Qed.

End Batches.

Section Lifecycle.
Context `{PyLib}.

Lemma init_ready output_dir fs0 st :
  Superdownloader.init output_dir fs0 = Return st ->
  st = Superdownloader.ready output_dir fs0.
Proof.
  unfold Superdownloader.init.
  destruct (mkdir_exist_ok output_dir fs0); [|discriminate].
  intros Heq. now injection Heq as <-.
Qed.


End Lifecycle.

Lemma success_count_is_bounded_witness :
  0 <= 2 <= Z.of_nat (length (Superdownloader.url_lines
                                (read_text "data/all_pdfs.txt"
                                   (write_file "data/all_pdfs.txt"
                                      (url_text [Sample.doc; Sample.doc2])
                                      (mkdir "./pdfs" empty_fs)))))
  /\ Z.of_nat (writes
                 (Superdownloader.trace
                    (snd (@Superdownloader.download_from_file Plain.plain_lib
                            Sample.gated_web "./pdfs" "data/all_pdfs.txt"
                            (Superdownloader.ready "./pdfs"
                               (write_file "data/all_pdfs.txt"
                                  (url_text [Sample.doc; Sample.doc2]) empty_fs))))))
     = Z.of_nat (writes []) + 2.
Proof.
  apply (@success_count_is_bounded Plain.plain_lib Sample.gated_web "./pdfs"
           "data/all_pdfs.txt"
           (Superdownloader.ready "./pdfs"
              (write_file "data/all_pdfs.txt"
                 (url_text [Sample.doc; Sample.doc2]) empty_fs))).
  vm_compute. reflexivity.
Defined.

Lemma files_are_read_in_order_witness :
  [Sample.doc; Sample.doc2]
  = concat (map (fun f => Superdownloader.url_lines
                            (read_text f
                               (write_file "a.txt" (url_text [Sample.doc])
                                  (write_file "b.txt" (url_text [Sample.doc2])
                                     empty_fs))))
                ["a.txt"; "b.txt"]).
Proof.
  apply (files_are_read_in_order ["a.txt"; "b.txt"]
           (write_file "a.txt" (url_text [Sample.doc])
              (write_file "b.txt" (url_text [Sample.doc2]) empty_fs))).
  vm_compute. reflexivity.
Defined.


(** ** The registry of downloaded data sets *)

Section Registry.
Context `{PyLib}.
Import Supermain.

Lemma append_cons c a b : String c a +:+ b = String c (a +:+ b).
Proof. reflexivity. Qed.

Lemma lines_cons c s :
  lines (String c s)
  = if is_newline c then EmptyString :: lines s
    else match lines s with
         | [] => [String c EmptyString]
         | l :: ls => String c l :: ls
         end.
Proof. reflexivity. Qed.

Lemma lines_nonempty t rest : lines (t +:+ String "010"%char rest) <> [].
Proof.
  destruct t as [|c t].
  - change (EmptyString :: lines rest <> []). discriminate.
  - rewrite append_cons, lines_cons.
    destruct (is_newline c); [discriminate|].
    destruct (lines _); discriminate.
Qed.

(** A text that ends a line can be read on its own. *)
Lemma lines_app_terminated t rest :
  lines ((t +:+ String "010"%char "") +:+ rest)
  = lines (t +:+ String "010"%char "") ++ lines rest.
Proof.
  induction t as [|c t IH]; [reflexivity|].
  rewrite !append_cons, !lines_cons, IH.
  destruct (is_newline c); [reflexivity|].
  pose proof (lines_nonempty t "") as Hne.
  destruct (lines (t +:+ String "010"%char "")) as [|l ls];
    [contradiction | reflexivity].
Qed.

Lemma digit_not_space c : is_digit c = true -> is_space c = false.
Proof.
  unfold is_digit, is_space. cbv zeta. intros Hd.
  apply andb_true_iff in Hd as [H1 H2]. apply Nat.leb_le in H1, H2.
  apply orb_false_iff. split; apply andb_false_iff; right;
    apply Nat.leb_gt; lia.
Qed.

Lemma digit_not_newline c : is_digit c = true -> is_newline c = false.
Proof.
  unfold is_digit, is_newline. cbv zeta. intros Hd.
  apply andb_true_iff in Hd as [H1 H2]. apply Nat.leb_le in H1, H2.
  apply orb_false_iff. split; apply Nat.eqb_neq; lia.
Qed.

Lemma digits_strip s :
  forallb is_digit (list_ascii_of_string s) = true -> strip s = s.
Proof.
  intros Hd. unfold strip.
  assert (Hl : lstrip s = s).
  { destruct s as [|c s]; [reflexivity|].
    cbn [list_ascii_of_string forallb] in Hd.
    apply andb_true_iff in Hd as [Hc _].
    cbn [lstrip]. now rewrite (digit_not_space c Hc). }
  rewrite Hl. clear Hl. induction s as [|c s IH]; [reflexivity|].
  cbn [list_ascii_of_string forallb] in Hd.
  apply andb_true_iff in Hd as [Hc Hs].
  rewrite rstrip_cons, (IH Hs), (digit_not_space c Hc). now destruct s.
Qed.

Lemma digits_no_newline s :
  forallb is_digit (list_ascii_of_string s) = true -> no_newline s = true.
Proof.
  induction s as [|c s IH]; [reflexivity|]. intros Hd.
  cbn [list_ascii_of_string forallb] in Hd.
  apply andb_true_iff in Hd as [Hc Hs].
  now rewrite no_newline_cons, (digit_not_newline c Hc), IH.
Qed.

(** The decimal numeral of [str]: digits only, with the value [int]
    reads back. *)
Lemma uint_digits d :
  forallb is_digit (list_ascii_of_string (NilEmpty.string_of_uint d)) = true.
Proof.
  induction d; cbn [NilEmpty.string_of_uint list_ascii_of_string forallb];
    [reflexivity | rewrite IHd; reflexivity ..].
Qed.

Lemma uint_value_acc d (p : positive) :
  fold_left (fun acc c => 10 * acc + Z.of_nat (nat_of_ascii c - 48))
            (list_ascii_of_string (NilEmpty.string_of_uint d)) (Zpos p)
  = Zpos (Pos.of_uint_acc d p).
Proof.
  revert p. induction d; intros p;
    cbn [NilEmpty.string_of_uint list_ascii_of_string fold_left Pos.of_uint_acc];
    [reflexivity | rewrite <- IHd; f_equal;
                   match goal with
                   | |- context [Z.of_nat ?n] =>
                       let v := eval vm_compute in (Z.of_nat n) in
                       change (Z.of_nat n) with v
                   end; lia ..].
Qed.

Lemma uint_value d :
  fold_left (fun acc c => 10 * acc + Z.of_nat (nat_of_ascii c - 48))
            (list_ascii_of_string (NilEmpty.string_of_uint d)) 0
  = Z.of_N (Pos.of_uint d).
Proof.
  induction d;
    cbn [NilEmpty.string_of_uint list_ascii_of_string fold_left Pos.of_uint];
    [reflexivity | exact IHd
     | match goal with
       | |- context [Pos.of_uint_acc d ?p] => exact (uint_value_acc d p)
       end ..].
Qed.

Lemma str_digits n :
  0 <= n -> forallb is_digit (list_ascii_of_string (str_of_Z n)) = true.
Proof.
  intros Hn. unfold str_of_Z. destruct n as [|p|p]; [reflexivity | | lia].
  cbn [Z.to_int NilEmpty.string_of_int]. apply uint_digits.
Qed.

Lemma str_isdigit n : 0 <= n -> isdigit (str_of_Z n) = true.
Proof.
  intros Hn. unfold isdigit. rewrite str_digits, andb_true_r by exact Hn.
  unfold str_of_Z. destruct n as [|p|p]; [reflexivity | | lia].
  cbn [Z.to_int NilEmpty.string_of_int].
  pose proof (DecimalPos.Unsigned.to_uint_nonnil p) as Hnil.
  destruct (Pos.to_uint p); [contradiction | reflexivity ..].
Qed.

Lemma int_of_str n : 0 <= n -> int_of_digits (str_of_Z n) = n.
Proof.
  intros Hn. unfold int_of_digits, str_of_Z.
  destruct n as [|p|p]; [reflexivity | | lia].
  cbn [Z.to_int NilEmpty.string_of_int].
  rewrite uint_value, DecimalPos.Unsigned.of_to. reflexivity.
Qed.

Lemma negative_not_digits n : n < 0 -> isdigit (strip (str_of_Z n)) = false.
Proof.
  intros Hn. destruct n as [|p|p]; [lia | lia |].
  unfold str_of_Z. cbn [Z.to_int NilEmpty.string_of_int].
  unfold strip. cbn [lstrip]. change (is_space "-"%char) with false.
  cbv iota.
  destruct (rstrip_keeps_head "-"%char
              (NilEmpty.string_of_uint (Pos.to_uint p)) eq_refl) as (r & ->).
  reflexivity.
Qed.

Lemma str_no_newline n : no_newline (str_of_Z n) = true.
Proof.
  unfold str_of_Z. destruct n as [|p|p]; [reflexivity | |];
    cbn [Z.to_int NilEmpty.string_of_int].
  - apply digits_no_newline, uint_digits.
  - rewrite no_newline_cons. change (is_newline "-"%char) with false.
    cbn [negb andb]. apply digits_no_newline, uint_digits.
Qed.

Lemma int_of_digits_nonneg s : 0 <= int_of_digits s.
Proof.
  unfold int_of_digits.
  cut (forall l acc, 0 <= acc ->
         0 <= fold_left (fun acc c => 10 * acc + Z.of_nat (nat_of_ascii c - 48))
                        l acc); [intros Hcut; apply Hcut; lia|].
  induction l as [|c l IH]; intros acc Hacc; cbn [fold_left]; [exact Hacc|].
  apply IH. lia.
Qed.

(** The registry is read whether or not the file is there: a missing
    file reads as the empty text. *)
Lemma load_lines fs :
  load_downloaded_datasets fs
  = fold_left
      (fun (downloaded : gset Z) line =>
         let line := strip line in
         if isdigit line then {[int_of_digits line]} ∪ downloaded
         else downloaded)
      (lines (read_text downloaded_file fs)) ∅.
Proof.
  unfold load_downloaded_datasets.
  destruct (path_exists fs downloaded_file) eqn:E; [reflexivity|].
  cbn [negb]. unfold path_exists in E. apply orb_false_iff in E as [E _].
  apply bool_decide_eq_false in E. unfold read_text.
  destruct (files fs !! downloaded_file) eqn:F; [|reflexivity].
  exfalso. apply E. eauto.
Qed.

Lemma load_nonneg fs i : i ∈ load_downloaded_datasets fs -> 0 <= i.
Proof.
  rewrite load_lines.
  cut (forall ls (acc : gset Z),
         (forall j, j ∈ acc -> 0 <= j) ->
         forall j,
           j ∈ fold_left
                 (fun (downloaded : gset Z) line =>
                    let line := strip line in
                    if isdigit line then {[int_of_digits line]} ∪ downloaded
                    else downloaded) ls acc -> 0 <= j).
  { intros Hcut. apply Hcut. intros j Hj. now apply elem_of_empty in Hj. }
  induction ls as [|l ls IH]; intros acc Hacc j; cbn [fold_left]; [apply Hacc|].
  apply IH. cbv zeta. intros k Hk. destruct (isdigit (strip l)); [|auto].
  apply elem_of_union in Hk as [Hk|Hk]; [|auto].
  apply elem_of_singleton in Hk. subst k. apply int_of_digits_nonneg.
Qed.

Lemma read_saved n fs :
  read_text downloaded_file (save_downloaded_dataset n fs)
  = read_text downloaded_file fs +:+ (str_of_Z n +:+ String "010"%char "").
Proof. unfold save_downloaded_dataset. now rewrite read_append. Qed.

Lemma lines_saved n fs :
  read_text downloaded_file fs = ""
  \/ (exists t, read_text downloaded_file fs = t +:+ String "010"%char "") ->
  lines (read_text downloaded_file (save_downloaded_dataset n fs))
  = lines (read_text downloaded_file fs) ++ [str_of_Z n].
Proof.
  intros Hok. rewrite read_saved.
  assert (Hone : lines (str_of_Z n +:+ String "010"%char "") = [str_of_Z n])
    by (now rewrite lines_terminated by apply str_no_newline).
  destruct Hok as [->|(t & ->)].
  - exact Hone.
  - now rewrite lines_app_terminated, Hone.
Qed.

Lemma load_save n fs :
  read_text downloaded_file fs = ""
  \/ (exists t, read_text downloaded_file fs = t +:+ String "010"%char "") ->
  load_downloaded_datasets (save_downloaded_dataset n fs)
  = (if 0 <=? n then {[n]} else ∅) ∪ load_downloaded_datasets fs.
Proof.
  intros Hok. rewrite !load_lines, lines_saved by exact Hok.
  rewrite fold_left_app. cbn [fold_left]. cbv zeta.
  destruct (0 <=? n) eqn:Hn.
  - apply Z.leb_le in Hn.
    rewrite digits_strip by (now apply str_digits).
    now rewrite str_isdigit, int_of_str by exact Hn.
  - apply Z.leb_gt in Hn. rewrite negative_not_digits by exact Hn.
    now rewrite (left_id_L ∅ (∪)).
Qed.

Lemma saved_terminated n fs :
  exists t, read_text downloaded_file (save_downloaded_dataset n fs)
            = t +:+ String "010"%char "".
Proof.
  exists (read_text downloaded_file fs +:+ str_of_Z n).
  now rewrite read_saved, append_assoc.
Qed.

Lemma load_register nums fs tr :
  read_text downloaded_file fs = ""
  \/ (exists t, read_text downloaded_file fs = t +:+ String "010"%char "") ->
  load_downloaded_datasets (fst (register_all nums fs tr))
  = list_to_set (List.filter (fun n => 0 <=? n) nums)
      ∪ load_downloaded_datasets fs.
Proof.
  revert fs tr. induction nums as [|n nums IH]; intros fs tr Hok;
    cbn [register_all List.filter].
  - cbn [fst list_to_set]. now rewrite (left_id_L ∅ (∪)).
  - rewrite IH by (right; apply saved_terminated).
    rewrite load_save by exact Hok.
    destruct (0 <=? n); cbn [list_to_set].
    + now rewrite (assoc_L (∪)), (comm_L (∪) (list_to_set _) {[n]}).
    + now rewrite (left_id_L ∅ (∪)).
Qed.

Lemma NoDup_list_filter {A : Type} (keep : A -> bool) (l : list A) :
  NoDup l -> NoDup (List.filter keep l).
Proof.
  induction 1 as [|x l Hx _ IH]; cbn [List.filter]; [constructor|].
  destruct (keep x); [|exact IH]. constructor; [|exact IH].
  intros Hin. apply Hx. apply list_elem_of_In, filter_In in Hin as [Hin _].
  now apply list_elem_of_In.
Qed.

(** X12.  [generate_dataset_urls] returns one URL per data set number,
    built from that number; the numbers are exactly those of the range
    from start to end that are not registered as downloaded, each once
    and in ascending order of the range; a range with start above end
    gives nothing. *)
Theorem generated_numbers_are_the_pending_ones (start end_ : Z) (fs : filesys) :
  fst (generate_dataset_urls start end_ fs)
  = map dataset_url (snd (generate_dataset_urls start end_ fs))
  /\ (forall i, i ∈ snd (generate_dataset_urls start end_ fs)
                <-> start <= i <= end_ /\ i ∉ load_downloaded_datasets fs)
  /\ NoDup (snd (generate_dataset_urls start end_ fs))
  /\ (end_ < start -> generate_dataset_urls start end_ fs = ([], [])).
Proof.
  rewrite generate_dataset_urls_pending. cbn [fst snd].
  split; [reflexivity|]. split; [|split].
  - intros i. unfold pending. rewrite list_elem_of_In, filter_In.
    rewrite <- list_elem_of_In, elem_of_seqZ, negb_true_iff. split.
    + intros [Hr Hn]. split; [lia|]. now apply bool_decide_eq_false in Hn.
    + intros [Hr Hn]. split; [lia|]. now apply bool_decide_eq_false.
  - unfold pending. apply NoDup_list_filter, NoDup_seqZ.
  - intros Hlt. unfold pending.
    assert (Hempty : seqZ start (end_ + 1 - start) = []).
    { unfold seqZ. destruct (end_ + 1 - start) eqn:E; try lia; reflexivity. }
    now rewrite Hempty.
Qed.

(** X13.  Writing and reading the registry of downloaded data sets is a
    round trip for the numbers from 0 on: when the registry file is
    missing, empty, or ends with a line feed, then after the
    registration loop has run over a list of numbers the registry reads
    as what it read before together with the numbers of the list that
    are not negative; and the file again ends with a line feed. *)
Theorem registered_data_sets_are_loaded (nums : list Z) (fs : filesys)
        (tr : list event) :
  read_text downloaded_file fs = ""
  \/ (exists t, read_text downloaded_file fs = t +:+ String "010"%char "") ->
  load_downloaded_datasets (fst (register_all nums fs tr))
  = list_to_set (List.filter (fun n => 0 <=? n) nums)
      ∪ load_downloaded_datasets fs
  /\ (read_text downloaded_file (fst (register_all nums fs tr)) = ""
      \/ exists t, read_text downloaded_file (fst (register_all nums fs tr))
                   = t +:+ String "010"%char "").
Proof.
  intros Hok. split; [now apply load_register|].
  revert fs tr Hok. induction nums as [|n nums IH]; intros fs tr Hok;
    cbn [register_all]; [exact Hok|].
  apply IH. right. apply saved_terminated.
Qed.

(** X14.  A negative data set number is never read from the registry,
    whatever the file holds: its line starts with a minus sign and is
    skipped.  So a negative number of the range is generated on every
    run, also after it has been registered. *)
Theorem negative_numbers_stay_pending (start end_ i : Z) (fs : filesys) :
  start <= i <= end_ -> i < 0 ->
  (i ∉ load_downloaded_datasets fs)
  /\ i ∈ snd (generate_dataset_urls start end_ fs).
Proof.
  intros Hr Hneg.
  assert (Hnot : i ∉ load_downloaded_datasets fs).
  { intros Hin. apply load_nonneg in Hin. lia. }
  split; [exact Hnot|].
  rewrite generate_dataset_urls_pending. cbn [snd]. unfold pending.
  apply list_elem_of_In, filter_In. split.
  - apply list_elem_of_In, elem_of_seqZ. lia.
  - now rewrite bool_decide_eq_false_2.
Qed.

(** X15.  Once the registration loop has registered every data set of a
    range of numbers from 0 on, a run of [main] over that range does
    nothing: it exits with 0, scrapes no page, starts no browser and
    leaves the file system as it is. *)
Theorem registered_range_is_skipped (wd : world) (prog a1 a2 : string)
        (start end_ : Z) (nums : list Z) (fs : filesys) (tr : list event) :
  py_int a1 = Some start -> py_int a2 = Some end_ ->
  0 <= start <= end_ ->
  read_text downloaded_file fs = ""
  \/ (exists t, read_text downloaded_file fs = t +:+ String "010"%char "") ->
  (forall i, start <= i <= end_ -> i ∈ nums) ->
  main wd [prog; a1; a2] (fst (register_all nums fs tr))
  = (0, fst (register_all nums fs tr), []).
Proof.
  intros Hs He Hr Hok Hall.
  assert (Hp : pending start end_ (fst (register_all nums fs tr)) = []).
  { apply pending_nil. intros i Hi. rewrite load_register by exact Hok.
    apply elem_of_union_l, elem_of_list_to_set, list_elem_of_In, filter_In.
    split; [apply list_elem_of_In, Hall, Hi | apply Z.leb_le; lia]. }
  destruct (main_cases wd prog a1 a2 start end_ (fst (register_all nums fs tr))
                       Hs He (proj2 Hr))
    as [[_ Hmain]|[(Hne & _)|[(Hne & _)|(Hne & _)]]];
    [exact Hmain | contradiction ..].
Qed.

End Registry.

Lemma registered_data_sets_are_loaded_witness :
  Supermain.load_downloaded_datasets
    (fst (Supermain.register_all [3; -1; 12] empty_fs []))
  = list_to_set (List.filter (fun n => 0 <=? n) [3; -1; 12])
      ∪ Supermain.load_downloaded_datasets empty_fs
  /\ (read_text Supermain.downloaded_file
        (fst (Supermain.register_all [3; -1; 12] empty_fs [])) = ""
      \/ exists t, read_text Supermain.downloaded_file
                     (fst (Supermain.register_all [3; -1; 12] empty_fs []))
                   = t +:+ String "010"%char "").
Proof.
  apply (registered_data_sets_are_loaded [3; -1; 12] empty_fs []).
  left. reflexivity.
Defined.

Lemma negative_numbers_stay_pending_witness :
  ((-1) ∉ Supermain.load_downloaded_datasets
            (Supermain.save_downloaded_dataset (-1) empty_fs))
  /\ (-1) ∈ snd (Supermain.generate_dataset_urls (-1) 0
                   (Supermain.save_downloaded_dataset (-1) empty_fs)).
Proof.
  apply (negative_numbers_stay_pending (-1) 0 (-1)
           (Supermain.save_downloaded_dataset (-1) empty_fs)); lia.
Defined.

Lemma registered_range_is_skipped_witness :
  @Supermain.main Plain.plain_lib Sample.fruitful_world ["supermain"; "1"; "2"]
    (fst (Supermain.register_all [1; 2] empty_fs []))
  = (0, fst (Supermain.register_all [1; 2] empty_fs []), []).
Proof.
  apply (@registered_range_is_skipped Plain.plain_lib Sample.fruitful_world
           "supermain" "1" "2" 1 2 [1; 2] empty_fs []).
  - reflexivity.
  - reflexivity.
  - lia.
  - left. reflexivity.
  - intros i Hi. assert (i = 1 \/ i = 2) as [->| ->] by lia.
    + apply elem_of_cons. now left.
    + apply elem_of_cons. right. apply elem_of_cons. now left.
Defined.

(** ** The command line of the browser downloader *)

Section DownloaderMain.
Context `{PyLib}.

(** The count [download_pdfs] returns is the number of files its run
    stored; a run that raises has stored none. *)
Lemma download_pdfs_count w url_files output_dir fs0 :
  match Superdownloader.download_pdfs w url_files output_dir fs0 with
  | (Return n, _, tr) => n = Z.of_nat (writes tr)
  | (Raise _, _, tr) => writes tr = 0%nat
  end.
Proof.
  unfold Superdownloader.download_pdfs.
  destruct (List.find _ _); [reflexivity|].
  destruct (Superdownloader.init output_dir fs0) as [st0|e] eqn:Hinit;
    [|reflexivity].
  apply init_ready in Hinit. subst st0.
  destruct (Superdownloader.chrome_starts w); [|reflexivity].
  assert (Hrun : forall urls,
             fst (Superdownloader.download_each w output_dir urls 0
                    (Superdownloader.log EvChromeStart
                       (Superdownloader.ready output_dir fs0)))
             = Z.of_nat
                 (writes
                    (Superdownloader.trace
                       (snd (Superdownloader.download_each w output_dir urls 0
                               (Superdownloader.log EvChromeStart
                                  (Superdownloader.ready output_dir fs0))))
                       ++ [EvChromeQuit]))).
  { intros urls. rewrite download_each_writes, writes_app.
    change (writes [EvChromeQuit]) with 0%nat.
    change (writes (Superdownloader.trace
                      (Superdownloader.log EvChromeStart
                         (Superdownloader.ready output_dir fs0)))) with 0%nat.
    lia. }
  destruct (length _ =? 1)%nat.
  - unfold Superdownloader.download_from_file.
    destruct (Superdownloader.read_urls _ _) as [urls|e]; [|reflexivity].
    specialize (Hrun urls).
    destruct (Superdownloader.download_each _ _ _ _ _) as [n st]. exact Hrun.
  - unfold Superdownloader.download_from_multiple_files.
    destruct (Superdownloader.collect_urls _ _ _) as [urls|e]; [|reflexivity].
    specialize (Hrun urls).
    destruct (Superdownloader.download_each _ _ _ _ _) as [n st]. exact Hrun.
Qed.

(** X16.  The command [superdownloader.py] exits with 0 or with 1, and
    with 0 exactly when its run stored at least one file.  When no
    argument names a URL file (every argument after the program name
    starts with [--], or there is none), or when one of the named files
    does not exist, it exits with 1 without creating the output
    directory or starting the browser. *)
Theorem downloader_exit_code (w : Superdownloader.web) (argv : list string)
        (fs0 : filesys) :
  (fst (fst (Superdownloader.main w argv fs0)) = 0
   \/ fst (fst (Superdownloader.main w argv fs0)) = 1)
  /\ (fst (fst (Superdownloader.main w argv fs0)) = 0
      <-> (0 < writes (snd (Superdownloader.main w argv fs0)))%nat)
  /\ (List.filter (fun arg => negb (startswith arg "--")) (tl argv) = []
      \/ (exists f,
             In f (List.filter (fun arg => negb (startswith arg "--")) (tl argv))
             /\ path_exists fs0 f = false) ->
      Superdownloader.main w argv fs0 = (1, fs0, [])).
Proof.
  assert (Hidle : forall r : Z * filesys * list event,
             r = (1, fs0, []) ->
             (fst (fst r) = 0 \/ fst (fst r) = 1)
             /\ (fst (fst r) = 0 <-> (0 < writes (snd r))%nat)).
  { intros r ->. split; [now right|]. split; [discriminate | cbn; lia]. }
  unfold Superdownloader.main.
  destruct (length argv <? 2)%nat;
    [destruct (Hidle _ eq_refl) as [H1 H2]; now repeat split|].
  cbv zeta.
  destruct (List.filter (fun arg => negb (startswith arg "--")) (tl argv))
    as [|f files] eqn:Hfiles;
    [destruct (Hidle _ eq_refl) as [H1 H2]; now repeat split|].
  destruct (List.find _ (f :: files)) as [g|] eqn:Hfind;
    [destruct (Hidle _ eq_refl) as [H1 H2]; now repeat split|].
  pose proof (download_pdfs_count w (inr (f :: files)) "./pdfs" fs0) as Hcount.
  destruct (Superdownloader.download_pdfs w (inr (f :: files)) "./pdfs" fs0)
    as [[[n|e] fs1] tr]; cbn [fst snd].
  - subst n. split; [|split].
    + destruct (0 <? Z.of_nat (writes tr)); auto.
    + destruct (0 <? Z.of_nat (writes tr)) eqn:Hpos.
      * apply Z.ltb_lt in Hpos. split; [lia | reflexivity].
      * apply Z.ltb_ge in Hpos. split; [discriminate | lia].
    + intros [Hnil|(g & Hg & Hgone)]; [discriminate|].
      apply (find_none _ _ Hfind) in Hg. rewrite Hgone in Hg. discriminate.
  - rewrite Hcount. split; [now right|]. split; [split; [discriminate | lia]|].
    intros [Hnil|(g & Hg & Hgone)]; [discriminate|].
    apply (find_none _ _ Hfind) in Hg. rewrite Hgone in Hg. discriminate.
Qed.

End DownloaderMain.

(** ** Search, then download *)

Section SearchThenDownload.
Context `{PyLib}.

(** The download of one URL file that is there, with a browser that
    starts. *)
Lemma download_pdfs_one (w : Superdownloader.web) f output_dir fs1 text st0 :
  files fs1 !! f = Some text ->
  Superdownloader.init output_dir fs1 = Return st0 ->
  Superdownloader.chrome_starts w = true ->
  Superdownloader.download_pdfs w (inl f) output_dir fs1
  = (Return (fst (Superdownloader.download_each w output_dir
                    (Superdownloader.url_lines text) 0
                    (Superdownloader.log EvChromeStart
                       (Superdownloader.ready output_dir fs1)))),
     Superdownloader.fs
       (snd (Superdownloader.download_each w output_dir
               (Superdownloader.url_lines text) 0
               (Superdownloader.log EvChromeStart
                  (Superdownloader.ready output_dir fs1)))),
     Superdownloader.trace
       (snd (Superdownloader.download_each w output_dir
               (Superdownloader.url_lines text) 0
               (Superdownloader.log EvChromeStart
                  (Superdownloader.ready output_dir fs1))))
       ++ [EvChromeQuit]).
Proof.
  intros Hf Hinit Hstart. unfold Superdownloader.download_pdfs.
  assert (Hex : path_exists fs1 f = true).
  { unfold path_exists. rewrite Hf.
    rewrite bool_decide_eq_true_2 by eauto. reflexivity. }
  cbn [List.find]. rewrite Hex. cbn [negb]. rewrite Hinit.
  apply init_ready in Hinit. subst st0. rewrite Hstart.
  cbn [length Nat.eqb hd]. unfold Superdownloader.download_from_file.
  assert (Hread : Superdownloader.read_urls f
                    (Superdownloader.fs
                       (Superdownloader.log EvChromeStart
                          (Superdownloader.ready output_dir fs1)))
                  = Return (Superdownloader.url_lines text)).
  { unfold Superdownloader.read_urls. simpl. now rewrite Hf. }
  rewrite Hread.
  destruct (Superdownloader.download_each _ _ _ _ _) as [n st]. reflexivity.
Qed.

(** X17.  [search_and_download] downloads from the file the search has
    appended to, whether the file is named or left to the default: when
    the search finds URLs, the file held the URLs of earlier searches,
    and the downloader can make its output directory and start its
    browser, every URL of the file is attempted, the earlier ones
    too.  The first number returned is the number of URLs found, the
    second is the number of files stored, which is at most the number
    of URLs in the file; with a file that was missing or empty it is at
    most the number of URLs found. *)
Theorem search_and_download_reads_the_whole_file
        (s : Supersearcher.site) (w : Superdownloader.web)
        (search_string output_dir : string) (url_file : option string)
        (start_page : Z) (end_page : option Z) (fs : filesys)
        (prev urls : list string) (tr : list event)
        (st0 : Superdownloader.state) :
  Supersearcher.search_and_extract s search_string start_page end_page
  = (Return urls, tr) ->
  urls <> [] ->
  read_text match url_file with
            | None => Supersearcher.default_url_file search_string
            | Some f => f
            end fs = url_text prev ->
  Forall (fun u => url_line u = true) (prev ++ urls) ->
  Superdownloader.init output_dir
    (Supersearcher.save_urls_to_file urls
       match url_file with
       | None => Supersearcher.default_url_file search_string
       | Some f => f
       end fs) = Return st0 ->
  Superdownloader.chrome_starts w = true ->
  exists downloaded fs' tr_download,
    SearchAndDownload.search_and_download true s w search_string output_dir
      url_file start_page end_page fs
    = (Return (Z.of_nat (length urls), downloaded), fs',
       (EvChromeStart :: tr ++ [EvChromeQuit]) ++ tr_download)
    /\ (forall u, u ∈ prev ++ urls -> EvDriverGet u ∈ tr_download)
    /\ downloaded = Z.of_nat (writes tr_download)
    /\ 0 <= downloaded <= Z.of_nat (length prev) + Z.of_nat (length urls).
Proof.
  intros Hsearch Hne Hprev Hwf Hinit Hstart.
  unfold SearchAndDownload.search_and_download, Supersearcher.search_pdfs.
  rewrite Hsearch. destruct urls as [|u0 rest]; [contradiction|].
  cbv beta iota zeta.
  set (file := match url_file with
               | None => Supersearcher.default_url_file search_string
               | Some f => f
               end) in *.
  set (fs1 := Supersearcher.save_urls_to_file (u0 :: rest) file fs) in *.
  assert (Hfile : files fs1 !! file = Some (url_text (prev ++ u0 :: rest))).
  { unfold fs1, Supersearcher.save_urls_to_file, append_file, write_file.
    cbn [files]. rewrite lookup_insert_eq.
    change (read_text file (mkdir_parents (parent file) fs))
      with (read_text file fs).
    now rewrite Hprev, url_text_app. }
  rewrite (download_pdfs_one w file output_dir fs1 _ st0 Hfile Hinit Hstart).
  rewrite (url_lines_url_text _ Hwf).
  set (st1 := Superdownloader.log EvChromeStart
                (Superdownloader.ready output_dir fs1)).
  pose proof (download_each_bounds w output_dir (prev ++ u0 :: rest) 0 st1) as Hb.
  pose proof (download_each_writes w output_dir (prev ++ u0 :: rest) 0 st1) as Hw.
  eexists _, _, _. split; [reflexivity|]. split; [|split].
  - intros u Hu. apply elem_of_app. left.
    now apply download_each_attempts_all.
  - rewrite Hw at 1. rewrite writes_app.
    change (writes [EvChromeQuit]) with 0%nat.
    change (writes (Superdownloader.trace st1)) with 0%nat. lia.
  - rewrite length_app in Hb. lia.
Qed.

End SearchThenDownload.

(** ** Text files of the OCR *)

Section Ocr.
Import Superocr.

Lemma path_exists_written p content fs :
  path_exists (write_file p content fs) p = true.
Proof.
  unfold path_exists, write_file. cbn [files].
  rewrite lookup_insert_eq, bool_decide_eq_true_2 by eauto. reflexivity.
Qed.

(** X18.  A PDF is converted at most once: after a call of
    [process_pdf] that returns, every later call for the same PDF and
    output directory returns [False] and changes nothing, whatever the
    OCR would give then.  So the marker written after a failed OCR is
    never replaced by a later run. *)
Theorem converted_pdf_is_skipped_afterwards
        (ocr ocr' : string -> option Unicode.text) (pdf_path output_dir : string)
        (fs fs1 : filesys) (b : bool) :
  process_pdf ocr pdf_path output_dir fs = (Return b, fs1) ->
  process_pdf ocr' pdf_path output_dir fs1 = (Return false, fs1).
Proof.
  unfold process_pdf. cbv zeta.
  destruct (path_exists fs (output_file pdf_path output_dir)) eqn:Hex.
  - intros Heq. injection Heq as <- <-. now rewrite Hex.
  - destruct (ocr pdf_path) as [text|];
      (destruct (can_create (output_file pdf_path output_dir) fs);
       [|discriminate]);
      try destruct (Unicode.encode _);
      intros Heq; injection Heq as <- <-;
      now rewrite path_exists_written.
Qed.

Lemma marker_encoded :
  Unicode.encode (Unicode.of_string empty_marker) = Some empty_marker.
Proof. reflexivity. Qed.

(** X19.  What [process_pdf] writes: when there is no output file yet
    and the call returns, exactly the output file is written.  It holds
    the marker [empty file], or the UTF-8 bytes of the OCR text, and
    then that text has at least 10 characters between leading and
    trailing white space.  A text of at least 10 such characters that
    can be encoded is written as it is; a shorter one is replaced by
    the marker, and the call still returns [True]; when the OCR raises
    the marker is written and the call returns [False]. *)
Theorem output_is_text_or_marker (ocr : string -> option Unicode.text)
        (pdf_path output_dir : string) (fs fs1 : filesys) (b : bool) :
  path_exists fs (output_file pdf_path output_dir) = false ->
  process_pdf ocr pdf_path output_dir fs = (Return b, fs1) ->
  exists content,
    fs1 = write_file (output_file pdf_path output_dir) content fs
    /\ (content = empty_marker
        \/ exists text,
            ocr pdf_path = Some text
            /\ Unicode.encode text = Some content
            /\ 10 <= Z.of_nat (length (Unicode.strip text)))
    /\ (forall text bytes,
          ocr pdf_path = Some text ->
          10 <= Z.of_nat (length (Unicode.strip text)) ->
          Unicode.encode text = Some bytes ->
          content = bytes /\ b = true)
    /\ (forall text,
          ocr pdf_path = Some text ->
          Z.of_nat (length (Unicode.strip text)) < 10 ->
          content = empty_marker /\ b = true)
    /\ (ocr pdf_path = None -> content = empty_marker /\ b = false).
Proof.
  intros Hex. unfold process_pdf. cbv zeta. rewrite Hex.
  destruct (ocr pdf_path) as [found|];
    (destruct (can_create (output_file pdf_path output_dir) fs);
     [|discriminate]).
  - destruct (match Unicode.strip found with [] => true | _ => false end
              || (Z.of_nat (length (Unicode.strip found)) <? 10)) eqn:Hshort.
    + rewrite marker_encoded. intros Heq. injection Heq as <- <-.
      assert (Hlen : Z.of_nat (length (Unicode.strip found)) < 10).
      { apply orb_true_iff in Hshort as [Hnil|Hlt].
        - destruct (Unicode.strip found); [cbn; lia | discriminate].
        - now apply Z.ltb_lt. }
      exists empty_marker. split; [reflexivity|]. split; [now left|].
      split; [|split; [|discriminate]].
      * intros text bytes Hf Hlong _. injection Hf as <-. lia.
      * intros text _ _. now split.
    + apply orb_false_iff in Hshort as [_ Hlong]. apply Z.ltb_ge in Hlong.
      destruct (Unicode.encode found) as [bytes|] eqn:Henc;
        intros Heq; injection Heq as <- <-.
      * exists bytes. split; [reflexivity|].
        split; [right; exists found; now repeat split|].
        split; [|split; [|discriminate]].
        -- intros text bytes' Hf _ Henc'. injection Hf as <-.
           rewrite Henc in Henc'. injection Henc' as <-. now split.
        -- intros text Hf Hlt. injection Hf as <-. lia.
      * exists empty_marker. split; [reflexivity|]. split; [now left|].
        split; [|split; [|discriminate]].
        -- intros text bytes' Hf _ Henc'. injection Hf as <-.
           rewrite Henc in Henc'. discriminate.
        -- intros text Hf Hlt. injection Hf as <-. lia.
  - intros Heq. injection Heq as <- <-.
    exists empty_marker. split; [reflexivity|]. split; [now left|].
    split; [discriminate|]. split; [discriminate|]. intros _. now split.
Qed.

End Ocr.

Lemma search_and_download_reads_the_whole_file_witness :
  exists downloaded fs' tr_download,
    @SearchAndDownload.search_and_download Plain.plain_lib true
      Sample.small_site Sample.gated_web "flight logs" "./pdfs" None 1 None
      (write_file Sample.store (url_text [Sample.doc]) empty_fs)
    = (Return (Z.of_nat (length [Sample.doc; Sample.doc2]), downloaded), fs',
       (EvChromeStart
          :: [EvDriverGet Supersearcher.search_url; EvGateWait; EvGateClick;
              EvSearch "flight logs"; EvExtract 1] ++ [EvChromeQuit])
         ++ tr_download)
    /\ (forall u, u ∈ [Sample.doc] ++ [Sample.doc; Sample.doc2] ->
                  EvDriverGet u ∈ tr_download)
    /\ downloaded = Z.of_nat (writes tr_download)
    /\ 0 <= downloaded
       <= Z.of_nat (length [Sample.doc])
          + Z.of_nat (length [Sample.doc; Sample.doc2]).
Proof.
  apply (@search_and_download_reads_the_whole_file Plain.plain_lib
           Sample.small_site Sample.gated_web "flight logs" "./pdfs" None
           1 None (write_file Sample.store (url_text [Sample.doc]) empty_fs)
           [Sample.doc] [Sample.doc; Sample.doc2]
           [EvDriverGet Supersearcher.search_url; EvGateWait; EvGateClick;
            EvSearch "flight logs"; EvExtract 1]
           (Superdownloader.ready "./pdfs"
              (Supersearcher.save_urls_to_file [Sample.doc; Sample.doc2]
                 Sample.store
                 (write_file Sample.store (url_text [Sample.doc]) empty_fs)))).
  - reflexivity.
  - discriminate.
  - reflexivity.
  - repeat constructor.
  - reflexivity.
  - reflexivity.
Defined.

Lemma converted_pdf_is_skipped_afterwards_witness :
  Superocr.process_pdf Sample.ocr_reads "pdfs/EFTA00000001.pdf" "texts"
    (write_file "texts/EFTA00000001.txt" Superocr.empty_marker
       (mkdir "texts" empty_fs))
  = (Return false,
     write_file "texts/EFTA00000001.txt" Superocr.empty_marker
       (mkdir "texts" empty_fs)).
Proof.
  apply (converted_pdf_is_skipped_afterwards Sample.ocr_fails Sample.ocr_reads
           "pdfs/EFTA00000001.pdf" "texts" (mkdir "texts" empty_fs)
           (write_file "texts/EFTA00000001.txt" Superocr.empty_marker
              (mkdir "texts" empty_fs))
           false).
  reflexivity.
Defined.

Lemma output_is_text_or_marker_witness :
  exists content,
    write_file "texts/EFTA00000001.txt" "empty file" (mkdir "texts" empty_fs)
    = write_file (Superocr.output_file "pdfs/EFTA00000001.pdf" "texts") content
        (mkdir "texts" empty_fs)
    /\ (content = Superocr.empty_marker
        \/ exists text,
            Sample.ocr_accents "pdfs/EFTA00000001.pdf" = Some text
            /\ Unicode.encode text = Some content
            /\ 10 <= Z.of_nat (length (Unicode.strip text)))
    /\ (forall text bytes,
          Sample.ocr_accents "pdfs/EFTA00000001.pdf" = Some text ->
          10 <= Z.of_nat (length (Unicode.strip text)) ->
          Unicode.encode text = Some bytes ->
          content = bytes /\ true = true)
    /\ (forall text,
          Sample.ocr_accents "pdfs/EFTA00000001.pdf" = Some text ->
          Z.of_nat (length (Unicode.strip text)) < 10 ->
          content = Superocr.empty_marker /\ true = true)
    /\ (Sample.ocr_accents "pdfs/EFTA00000001.pdf" = None ->
        content = Superocr.empty_marker /\ true = false).
Proof.
  apply (output_is_text_or_marker Sample.ocr_accents "pdfs/EFTA00000001.pdf"
           "texts" (mkdir "texts" empty_fs)
           (write_file "texts/EFTA00000001.txt" "empty file"
              (mkdir "texts" empty_fs))
           true).
  - reflexivity.
  - reflexivity.
Defined.
